(** * Retrying request executor of the Search Console client

    A shallow embedding of [GSCClient._request] (client.py) and of the
    exception classes it raises (api/_exceptions.py), followed by the
    properties of the retry loop, the error classification and the
    error-body parsing. *)

From Stdlib Require Import ZArith QArith Qminmax Lia Lqa.
From stdpp Require Import base option list gmap strings.

#[local] Set Warnings "-register-all".
Open Scope Z_scope.

(** ** Python values *)

(** A Python [float]: the finite values are kept as exact rationals.  The
    only arithmetic the executor does on floats is [backoff * 2] and
    [min(_, 16.0)] starting from [1.0], which is exact in binary floating
    point. *)
Inductive pyfloat :=
| Fin (q : Q)
| Inf (negative : bool)
| NaN.

(** What [resp.json()] can produce: the Python image of a JSON document. *)
Inductive pyval :=
| VNone
| VBool (b : bool)
| VInt (z : Z)
| VFloat (f : pyfloat)
| VStr (s : string)
| VList (l : list pyval)
| VDict (d : gmap string pyval).

(** Python truthiness, as used by [or], [and] and [if]. *)
Definition truthy (v : pyval) : bool :=
  match v with
  | VNone => false
  | VBool b => b
  | VInt z => negb (z =? 0)
  | VFloat (Fin q) => negb (Qeq_bool q 0)
  | VFloat _ => true
  | VStr s => negb (bool_decide (s = ""))
  | VList l => match l with [] => false | _ => true end
  | VDict d => negb (bool_decide (d = ∅))
  end.

(** [a or b] *)
Definition py_or (a b : pyval) : pyval := if truthy a then a else b.

(** [v.get(k, dflt)]: only a dict has the method; on any other value the
    attribute lookup raises [AttributeError] ([None] here). *)
Definition py_get (v : pyval) (k : string) (dflt : pyval) : option pyval :=
  match v with
  | VDict d => Some (default dflt (d !! k))
  | _ => None
  end.

(** ** Exceptions (api/_exceptions.py) *)

(** [AuthError] is a bare [GSCError]: it is built from one message string.
    [ApiError] and its two subclasses store [status], the message and
    [reason]; [details] is never passed by the executor and is left out. *)
Inductive GSCError :=
| AuthError (msg : string)
| ApiError (status : Z) (message : pyval) (reason : pyval)
| RateLimitError (status : Z) (message : pyval) (reason : pyval)
| RetryableError (status : Z) (message : pyval) (reason : pyval).

(** The [status] attribute; [AuthError] has none. *)
Definition err_status (e : GSCError) : option Z :=
  match e with
  | AuthError _ => None
  | ApiError s _ _ | RateLimitError s _ _ | RetryableError s _ _ => Some s
  end.

(** The [reason] attribute; [AuthError] has none. *)
Definition err_reason (e : GSCError) : option pyval :=
  match e with
  | AuthError _ => None
  | ApiError _ _ r | RateLimitError _ _ r | RetryableError _ _ r => Some r
  end.

(** The message the exception was constructed with ([args[0]]). *)
Definition err_message (e : GSCError) : pyval :=
  match e with
  | AuthError m => VStr m
  | ApiError _ m _ | RateLimitError _ m _ | RetryableError _ m _ => m
  end.

(** The exception class. *)
Inductive category := CAuth | CApi | CRateLimit | CRetryable.

Definition err_category (e : GSCError) : category :=
  match e with
  | AuthError _ => CAuth
  | ApiError _ _ _ => CApi
  | RateLimitError _ _ _ => CRateLimit
  | RetryableError _ _ _ => CRetryable
  end.

(** Exceptions of the interpreter and of the HTTP library that the executor
    does not catch. *)
Inductive builtin_exc := ValueError | OverflowError | JSONDecodeError.

(** ** HTTP exchange *)

(** The arguments of
    [self._session.request(method, url, json=.., timeout=..)]. *)
Record Request := mkRequest {
  req_method : string;
  req_url : string;
  req_json : option pyval;
  req_timeout : Z
}.

(** The attributes of a response the executor reads.  [json] is the result of
    [resp.json()]: [None] when it raises.  [headers] maps a header name, in
    the spelling the executor asks for, to its value. *)
Record Response := mkResponse {
  status_code : Z;
  content : list Byte.byte;
  text : string;
  headers : gmap string string;
  json : option pyval
}.

(** How one call of [_request] ends. *)
Inductive Outcome :=
| Return (v : pyval)
| Raise (e : GSCError)
| Uncaught (e : builtin_exc).

(** The log of one call, in order: each pass of the loop with the attempt
    counter and backoff it ran under, the request it sent and the response it
    got, and each completed [time.sleep]. *)
Inductive Event :=
| Attempt (n : nat) (backoff : Q) (rq : Request) (rs : Response)
| Sleep (d : Q).

(** ** The executor (client.py, [GSCClient._request]) *)

(** The longest duration of the interpreter's timestamp type, which counts
    nanoseconds in 64 bits: [2^63 - 1] nanoseconds, about 9.22e9 seconds. *)
Definition sleep_max : Q := 9223372036854775807 # 1000000000.

(** [time.sleep(secs)]: the duration slept, or the exception raised instead.
    The argument is first converted to a timestamp, which raises
    [ValueError] for NaN and [OverflowError] for an infinity or a finite
    value of either sign beyond the timestamp range; a negative value within
    the range is a [ValueError] then. *)
Definition time_sleep (secs : pyfloat) : Q + builtin_exc :=
  match secs with
  | NaN => inr ValueError
  | Inf _ => inr OverflowError
  | Fin q =>
      if Qle_bool (- sleep_max) q && Qle_bool q sleep_max then
        if Qle_bool 0 q then inl q else inr ValueError
      else inr OverflowError
  end.

Definition max_backoff : Q := 16.

(** [min(backoff * 2, max_backoff)] *)
Definition next_backoff (backoff : Q) : Q := Qmin (backoff * 2) max_backoff.

(** The result of one pass through the body of [while True]. *)
Inductive Step :=
| Continue (slept : Q) (backoff' : Q)
| Done (o : Outcome).

(** [err.get("error", {}).get("message") or err.get("message") or resp.text];
    [None] when an attribute lookup raises. *)
Definition extract_message (err : pyval) (txt : string) : option pyval :=
  e ← py_get err "error" (VDict ∅);
  m1 ← py_get e "message" VNone;
  if truthy m1 then Some m1
  else m2 ← py_get err "message" VNone;
       Some (py_or m2 (VStr txt)).

(** Lines 115-119.  [reason] starts as [None]; when ["error"] is a key of
    [err] and its value is a dict, [reasons] is that dict's ["errors"] entry
    or [[]]; when [reasons] is a non-empty list whose first entry is a dict,
    [reason] is that entry's ["reason"].  [err] is a dict whenever these
    lines are reached, since the line before has called [err.get]. *)
Definition extract_reason (err : pyval) : pyval :=
  match err with
  | VDict d =>
      match d !! "error" with
      | Some (VDict e) =>
          let reasons := py_or (default VNone (e !! "errors")) (VList []) in
          match reasons with
          | VList (VDict r0 :: _) => default VNone (r0 !! "reason")
          | _ => VNone
          end
      | _ => VNone
      end
  | _ => VNone
  end.

(** The [try] ... [except Exception] block, lines 112-122: the pair
    [(message, reason)]. *)
Definition parse_error (resp : Response) : pyval * pyval :=
  match json resp with
  | Some err =>
      match extract_message err (text resp) with
      | Some message => (message, extract_reason err)
      | None => (VStr (text resp), VNone)
      end
  | None => (VStr (text resp), VNone)
  end.

Section Executor.

(** [float(s)] on a string: [None] when it raises [ValueError]. *)
Variable float_of_str : string -> option pyfloat.

(** [str(v)] for a value that is not a string, as an f-string formats it. *)
Variable py_repr : pyval -> string.

(** The peer behind [self._session]: its state and its answer to one request.
    Runs in which the transport itself raises are outside the model. *)
Variable W : Type.
Variable session_request : Request -> W -> Response * W.

Definition py_str (v : pyval) : string :=
  match v with VStr s => s | _ => py_repr v end.

(** [float(resp.headers.get("Retry-After", backoff))] *)
Definition retry_after (resp : Response) (backoff : Q) : option pyfloat :=
  match headers resp !! "Retry-After" with
  | Some s => float_of_str s
  | None => Some (Fin backoff)
  end.

(** [time.sleep(d)] then [backoff = min(backoff * 2, max_backoff)] and
    [continue]; an exception of [time.sleep] ends the call. *)
Definition sleep_then_retry (d : pyfloat) (backoff : Q) : Step :=
  match time_sleep d with
  | inl slept => Continue slept (next_backoff backoff)
  | inr e => Done (Uncaught e)
  end.

(** Lines 106-141: the loop body after the response has arrived.  [attempts]
    is the counter after [attempts += 1]. *)
Definition handle (attempts : nat) (backoff : Q) (resp : Response) : Step :=
  let sc := status_code resp in
  if (200 <=? sc) && (sc <? 300) then
    match content resp with
    | _ :: _ =>
        match json resp with
        | Some v => Done (Return v)
        | None => Done (Uncaught JSONDecodeError)
        end
    | [] => Done (Return (VDict ∅))
    end
  else
    let '(message, reason) := parse_error resp in
    if sc =? 401 then
      Done (Raise (AuthError ("Unauthorized: " +:+ py_str message)))
    else if sc =? 429 then
      if (attempts <=? 5)%nat then
        match retry_after resp backoff with
        | Some sleep_for => sleep_then_retry sleep_for backoff
        | None => Done (Uncaught ValueError)
        end
      else Done (Raise (RateLimitError sc message reason))
    else if (500 <=? sc) && (sc <? 600) then
      if (attempts <=? 5)%nat then sleep_then_retry (Fin backoff) backoff
      else Done (Raise (RetryableError sc message reason))
    else Done (Raise (ApiError sc message reason)).

(** The [while True] loop, run for at most [fuel] passes.  [attempts] is the
    counter before [attempts += 1]. *)
Fixpoint loop (fuel : nat) (rq : Request) (attempts : nat) (backoff : Q)
    (w : W) : option (Outcome * list Event * W) :=
  match fuel with
  | O => None
  | S fuel' =>
      let attempts := S attempts in
      let '(resp, w) := session_request rq w in
      match handle attempts backoff resp with
      | Done o => Some (o, [Attempt attempts backoff rq resp], w)
      | Continue slept backoff' =>
          '(o, tr, w') ← loop fuel' rq attempts backoff' w;
          Some (o, Attempt attempts backoff rq resp :: Sleep slept :: tr, w')
      end
  end.

(** [self._request(method, url, json_body=...)] on a client whose [_timeout]
    is [timeout]: [backoff = 1.0], [attempts = 0], then the loop. *)
Definition _request (fuel : nat) (timeout : Z) (method url : string)
    (json_body : option pyval) (w : W) : option (Outcome * list Event * W) :=
  loop fuel (mkRequest method url json_body timeout) 0 1 w.

End Executor.

Arguments handle float_of_str py_repr attempts backoff resp : assert.
Arguments loop float_of_str py_repr {W} session_request
  fuel rq attempts backoff w.
Arguments _request float_of_str py_repr {W} session_request fuel timeout
  method url json_body w.

(** ** Reading the log *)

(** The responses received, in order. *)
Fixpoint responses (tr : list Event) : list Response :=
  match tr with
  | [] => []
  | Attempt _ _ _ rs :: tr => rs :: responses tr
  | Sleep _ :: tr => responses tr
  end.

(** The requests sent, in order. *)
Fixpoint requests (tr : list Event) : list Request :=
  match tr with
  | [] => []
  | Attempt _ _ rq _ :: tr => rq :: requests tr
  | Sleep _ :: tr => requests tr
  end.

(** The backoff value each pass ran under, in order. *)
Fixpoint backoffs (tr : list Event) : list Q :=
  match tr with
  | [] => []
  | Attempt _ b _ _ :: tr => b :: backoffs tr
  | Sleep _ :: tr => backoffs tr
  end.

(** The attempt counter of each pass, in order. *)
Fixpoint counters (tr : list Event) : list nat :=
  match tr with
  | [] => []
  | Attempt n _ _ _ :: tr => n :: counters tr
  | Sleep _ :: tr => counters tr
  end.

(** The durations slept, in order. *)
Fixpoint sleeps (tr : list Event) : list Q :=
  match tr with
  | [] => []
  | Attempt _ _ _ _ :: tr => sleeps tr
  | Sleep d :: tr => d :: sleeps tr
  end.

(** ** A scripted peer and a decimal [float], for concrete runs *)

(** The peer of the test suite's [fake_request]: it answers with the scripted
    responses in order, whatever the request, and with an empty [204] once the
    script is exhausted. *)
Definition replay (rq : Request) (script : list Response)
    : Response * list Response :=
  match script with
  | rs :: script => (rs, script)
  | [] => (mkResponse 204 [] "" ∅ None, [])
  end.

Definition digit_of (a : Ascii.ascii) : option Z :=
  let n := Z.of_nat (Ascii.nat_of_ascii a) in
  if (48 <=? n) && (n <=? 57) then Some (n - 48) else None.

Fixpoint digits_value (acc : Z) (s : string) : option Z :=
  match s with
  | EmptyString => Some acc
  | String a s => d ← digit_of a; digits_value (10 * acc + d) s
  end.

(** [float] on the non-empty strings of ASCII digits, where it is the integer
    they spell.  Every other string is refused; Python's [float] accepts more
    (signs, fractions, exponents, [inf], [nan]), so this stands for it only on
    digit strings and on strings Python refuses too, such as a date. *)
Definition float_of_digits (s : string) : option pyfloat :=
  match s with
  | EmptyString => None
  | _ => n ← digits_value 0 s; Some (Fin (inject_Z n))
  end.

(** A stand-in for [str] on non-strings in concrete runs, where no such value
    is formatted. *)
Definition repr_opaque (v : pyval) : string := "<object>".

(** ** The status classes of the spec *)

(** Follows the spec's classification rule (4.1), for a status outside
    [200, 300): 401, then 429, then 500-599, then anything else. *)
Definition category_of_status (sc : Z) : category :=
  if sc =? 401 then CAuth
  else if sc =? 429 then CRateLimit
  else if (500 <=? sc) && (sc <? 600) then CRetryable
  else CApi.

Definition is_success (sc : Z) : Prop := 200 <= sc < 300.

(** The statuses the executor retries. *)
Definition is_retryable (sc : Z) : Prop := sc = 429 \/ 500 <= sc < 600.

(** The backoff values of [k] consecutive passes that start at [b]. *)
Fixpoint schedule_from (b : Q) (k : nat) : list Q :=
  match k with
  | O => []
  | S k => b :: schedule_from (next_backoff b) k
  end.

(** The typed error a failing response stands for: the class chosen by
    [category_of_status], built the way the matching [raise] builds it. *)
Definition error_of_response (py_repr : pyval -> string) (rs : Response)
    : GSCError :=
  let sc := status_code rs in
  let message := fst (parse_error rs) in
  let reason := snd (parse_error rs) in
  match category_of_status sc with
  | CAuth => AuthError ("Unauthorized: " +:+ py_str py_repr message)
  | CRateLimit => RateLimitError sc message reason
  | CRetryable => RetryableError sc message reason
  | CApi => ApiError sc message reason
  end.

(** In which attempt state a pass raises the typed error of a status: at once
    for the final statuses, only past the fifth attempt for the retried ones. *)
Definition raises_at (n : nat) (sc : Z) : Prop :=
  is_retryable sc -> (5 < n)%nat.

(** The duration [d] slept after a pass that ran under backoff [b] and got
    [rs]: the [Retry-After] value when a 429 carries one, the backoff
    otherwise. *)
Definition sleep_rule (float_of_str : string -> option pyfloat)
    (rs : Response) (b d : Q) : Prop :=
  if status_code rs =? 429 then
    match headers rs !! "Retry-After" with
    | Some h => float_of_str h = Some (Fin d)
    | None => d = b
    end
  else d = b.

(** Every sleep of the log follows [sleep_rule] for the pass before it. *)
Fixpoint sleeps_explained (float_of_str : string -> option pyfloat)
    (tr : list Event) : Prop :=
  match tr with
  | [] => True
  | Sleep _ :: tr' => sleeps_explained float_of_str tr'
  | Attempt _ b _ rs :: tr' =>
      match tr' with
      | Sleep d :: _ => sleep_rule float_of_str rs b d
      | _ => True
      end /\ sleeps_explained float_of_str tr'
  end.

(** ** Concrete responses *)

(** A response whose body is plain text, on which [resp.json()] raises. *)
Definition plain_response (sc : Z) (body : string)
    (hdrs : gmap string string) : Response :=
  mkResponse sc (String.list_byte_of_string body) body hdrs None.

(** A response whose body [body] is the JSON text of [v]. *)
Definition json_response (sc : Z) (body : string) (v : pyval) : Response :=
  mkResponse sc (String.list_byte_of_string body) body ∅ (Some v).

(** A 429 whose [Retry-After] is an HTTP date, the other form the header
    may take. *)
Definition rate_limited_until_date : Response :=
  plain_response 429 "slow down"
    {[ "Retry-After" := "Wed, 21 Oct 2015 07:28:00 GMT" ]}.

(** A 429 that asks for a retry after [secs]. *)
Definition rate_limited_for (secs : string) : Response :=
  plain_response 429 "slow down" {[ "Retry-After" := secs ]}.

Definition unavailable : Response := plain_response 503 "unavailable" ∅.

Definition token_expired : Response := plain_response 401 "token expired" ∅.

Definition not_found : Response := plain_response 404 "no such site" ∅.

Definition empty_object : Response := json_response 200 "{}" (VDict ∅).

Definition no_content : Response := mkResponse 204 [] "" ∅ None.

Definition html_page : Response := plain_response 200 "<html></html>" ∅.

(** A 200 whose body is the JSON text [null]. *)
Definition null_body : Response := json_response 200 "null" VNone.

Definition sites_url : string :=
  "https://www.googleapis.com/webmasters/v3/sites".

(** The request of [sites_list] under the default timeout. *)
Definition list_sites : Request := mkRequest "GET" sites_url None 30.

(** [sites_list] against a scripted peer, with fuel for six passes. *)
Definition sites_list (script : list Response)
    : option (Outcome * list Event * list Response) :=
  _request float_of_digits repr_opaque replay 6 30 "GET" sites_url None script.

(** ** Sleeping time *)

(** The time one call spends in [time.sleep]. *)
Definition total_sleep (tr : list Event) : Q :=
  foldr Qplus 0%Q (sleeps tr).

(** No response of the log carries a [Retry-After] header. *)
Definition no_retry_after (tr : list Event) : Prop :=
  Forall (fun rs => headers rs !! "Retry-After" = None) (responses tr).

(** ** Request models (api/_requests.py) *)

(** The [Literal] types of the module are strings at run time and no
    dataclass checks them, so the fields they annotate are strings here:
    [Dimension], [Operator], [AggregationType], [DataState] and the
    [groupType] of a filter group. *)
Module Requests.

Record DimensionFilter := mkDimensionFilter {
  dimension : string;
  operator : string;
  expression : string
}.

Record DimensionFilterGroup := mkDimensionFilterGroup {
  filters : list DimensionFilter;
  groupType : string
}.

Record SearchAnalyticsQueryRequest := mkSearchAnalyticsQueryRequest {
  startDate : string;
  endDate : string;
  dimensions : list string;
  rowLimit : option Z;
  startRow : option Z;
  startDateInclusive : option bool;
  dimensionFilterGroups : option (list DimensionFilterGroup);
  aggregationType : option string;
  dataState : option string
}.

(** The inner dict of lines 60-64. *)
Definition filter_to_dict (f : DimensionFilter) : pyval :=
  VDict {[ "dimension" := VStr (dimension f);
           "operator" := VStr (operator f);
           "expression" := VStr (expression f) ]}.

(** The dict of lines 57-67. *)
Definition group_to_dict (g : DimensionFilterGroup) : pyval :=
  VDict {[ "groupType" := VStr (groupType g);
           "filters" := VList (filter_to_dict <$> filters g) ]}.

(** [d[k] = v] when [cond] holds. *)
Definition set_if (cond : bool) (k : string) (v : pyval)
    (d : gmap string pyval) : gmap string pyval :=
  if cond then <[k := v]> d else d.

(** [d[k] = inj(x)] when the optional field is not [None]. *)
Definition set_some {A} (x : option A) (k : string) (inj : A -> pyval)
    (d : gmap string pyval) : gmap string pyval :=
  match x with Some a => <[k := inj a]> d | None => d end.

(** [SearchAnalyticsQueryRequest.to_dict], lines 44-74. *)
Definition to_dict (self : SearchAnalyticsQueryRequest)
    : gmap string pyval :=
  let d := {[ "startDate" := VStr (startDate self);
              "endDate" := VStr (endDate self) ]} in
  let d := set_if (bool_decide (dimensions self <> [])) "dimensions"
             (VList (VStr <$> dimensions self)) d in
  let d := set_some (rowLimit self) "rowLimit" VInt d in
  let d := set_some (startRow self) "startRow" VInt d in
  let d := match dimensionFilterGroups self with
           | Some (g :: gs) =>
               <["dimensionFilterGroups" :=
                   VList (group_to_dict <$> g :: gs)]> d
           | _ => d
           end in
  let d := set_some (aggregationType self) "aggregationType" VStr d in
  let d := set_some (dataState self) "dataState" VStr d in
  d.

(** What [to_dict] keeps of a request: every field but [startDateInclusive],
    with an absent list of filter groups read as the empty one. *)
Definition sent_fields (self : SearchAnalyticsQueryRequest) :=
  (startDate self, endDate self, dimensions self, rowLimit self,
   startRow self, default [] (dimensionFilterGroups self),
   aggregationType self, dataState self).

(** The keys [to_dict] can emit. *)
Definition payload_keys : list string :=
  ["startDate"; "endDate"; "dimensions"; "rowLimit"; "startRow";
   "dimensionFilterGroups"; "aggregationType"; "dataState"].

End Requests.

(** ** Exceptions and conversions of the interpreter *)

(** The exceptions the code outside the executor can let escape. *)
Inductive pyexc :=
| TypeError
| AttributeError
| Builtin (e : builtin_exc).

(** A computation that returns a value or raises. *)
Inductive Raises (A : Type) :=
| Value (a : A)
| Throw (e : pyexc).

Arguments Value {A} a.
Arguments Throw {A} e.

#[global] Instance Raises_ret : MRet Raises := fun A a => Value a.

#[global] Instance Raises_bind : MBind Raises := fun A B f c =>
  match c with
  | Value a => f a
  | Throw e => Throw e
  end.

(** [[f(x) for x in l]]: the results in order, or the first exception. *)
Fixpoint comprehension {A B} (f : A -> Raises B) (l : list A)
    : Raises (list B) :=
  match l with
  | [] => Value []
  | x :: l => y ← f x; ys ← comprehension f l; Value (y :: ys)
  end.

(** What a [for] loop over [v] visits: the items of a list, the characters
    of a string, the keys of a dict (whose order gmap does not keep; every
    use below treats all keys alike); any other value is not iterable. *)
Definition py_iter (v : pyval) : Raises (list pyval) :=
  match v with
  | VList l => Value l
  | VStr s =>
      Value ((fun a => VStr (String a EmptyString))
               <$> String.list_ascii_of_string s)
  | VDict d => Value (VStr <$> (map_to_list d).*1)
  | _ => Throw TypeError
  end.

(** [float(v)].  An [int] of magnitude up to [2^53] converts exactly; beyond
    it the conversion rounds or overflows, which [float_of_big_int] stands
    for ([None] for [OverflowError]), as [float_of_str] stands for the
    conversion of a string ([None] for [ValueError]). *)
Definition py_float (float_of_str : string -> option pyfloat)
    (float_of_big_int : Z -> option pyfloat) (v : pyval) : Raises pyfloat :=
  match v with
  | VNone | VList _ | VDict _ => Throw TypeError
  | VBool b => Value (Fin (if b then 1 else 0))
  | VInt z =>
      if Z.abs z <=? 2 ^ 53 then Value (Fin (inject_Z z))
      else match float_of_big_int z with
           | Some f => Value f
           | None => Throw (Builtin OverflowError)
           end
  | VFloat f => Value f
  | VStr s =>
      match float_of_str s with
      | Some f => Value f
      | None => Throw (Builtin ValueError)
      end
  end.

(** ** Response models (api/_responses.py) *)

Module Responses.

(** [keys] is whatever the response held under ["keys"]: nothing checks that
    it is a list of strings. *)
Record SearchAnalyticsRow := mkSearchAnalyticsRow {
  keys : pyval;
  clicks : pyfloat;
  impressions : pyfloat;
  ctr : pyfloat;
  position : pyfloat
}.

Record SearchAnalyticsQueryResponse := mkSearchAnalyticsQueryResponse {
  rows : list SearchAnalyticsRow;
  response_aggregation_type : pyval
}.

Section FromDict.

Variable float_of_str : string -> option pyfloat.
Variable float_of_big_int : Z -> option pyfloat.

(** [float(d.get(k, 0) or 0)] *)
Definition metric (d : gmap string pyval) (k : string) : Raises pyfloat :=
  py_float float_of_str float_of_big_int
    (py_or (default (VInt 0) (d !! k)) (VInt 0)).

(** [SearchAnalyticsRow.from_dict], lines 17-25.  [d.get] raises
    [AttributeError] unless [d] is a dict. *)
Definition SearchAnalyticsRow_from_dict (d : pyval)
    : Raises SearchAnalyticsRow :=
  match d with
  | VDict m =>
      let keys := py_or (default (VList []) (m !! "keys")) (VList []) in
      clicks ← metric m "clicks";
      impressions ← metric m "impressions";
      ctr ← metric m "ctr";
      position ← metric m "position";
      Value (mkSearchAnalyticsRow keys clicks impressions ctr position)
  | _ => Throw AttributeError
  end.

(** [SearchAnalyticsQueryResponse.from_dict], lines 33-39. *)
Definition SearchAnalyticsQueryResponse_from_dict (d : pyval)
    : Raises SearchAnalyticsQueryResponse :=
  match d with
  | VDict m =>
      items ← py_iter (default (VList []) (m !! "rows"));
      rows ← comprehension SearchAnalyticsRow_from_dict items;
      Value (mkSearchAnalyticsQueryResponse rows
               (default VNone (m !! "responseAggregationType")))
  | _ => Throw AttributeError
  end.

End FromDict.

(** The values a [for] loop cannot run over. *)
Definition not_iterable (v : pyval) : Prop :=
  match v with
  | VNone | VBool _ | VInt _ | VFloat _ => True
  | _ => False
  end.

(** [d.get(k)] is missing or falsy. *)
Definition absent_or_falsy (d : gmap string pyval) (k : string) : Prop :=
  match d !! k with
  | None => True
  | Some v => truthy v = false
  end.

(** The four metrics of a row. *)
Definition metric_names : list string :=
  ["clicks"; "impressions"; "ctr"; "position"].

End Responses.

(** ** Text *)

(** A [string] stands for a Python [str] of code points below 256, which is
    what a decoded HTTP header is. *)

(** [c.isspace()] for a code point below 256: tab to carriage return, the
    four separators 28-31, the space, NEL and the no-break space. *)
Definition is_space (a : Ascii.ascii) : bool :=
  let n := Ascii.N_of_ascii a in
  ((9 <=? n) && (n <=? 13) || (28 <=? n) && (n <=? 32)
   || (n =? 133) || (n =? 160))%N.

(** [s.split()] on the rest [s] of a string, [word] being the part of the
    current word read so far (empty between words). *)
Fixpoint split_from (word : string) (s : string) : list string :=
  match s with
  | EmptyString => match word with EmptyString => [] | _ => [word] end
  | String a s' =>
      if is_space a then
        match word with
        | EmptyString => split_from "" s'
        | _ => word :: split_from "" s'
        end
      else split_from (word +:+ String a EmptyString) s'
  end.

(** [s.split()]: the maximal runs of characters that are not whitespace. *)
Definition py_split (s : string) : list string := split_from "" s.

(** [c.lower()] for a code point below 256: the ASCII capitals and the
    Latin-1 capitals 192-222 (215, the multiplication sign, aside) move up by
    32. *)
Definition lower_char (a : Ascii.ascii) : Ascii.ascii :=
  let n := Ascii.N_of_ascii a in
  if ((65 <=? n) && (n <=? 90)
      || (192 <=? n) && (n <=? 222) && negb (n =? 215))%N
  then Ascii.ascii_of_N (n + 32) else a.

(** [s.lower()] *)
Fixpoint py_lower (s : string) : string :=
  match s with
  | EmptyString => EmptyString
  | String a s' => String (lower_char a) (py_lower s')
  end.

(** No character of [s] is whitespace. *)
Fixpoint no_space (s : string) : Prop :=
  match s with
  | EmptyString => True
  | String a s' => is_space a = false /\ no_space s'
  end.

(** Every character of [s] is whitespace. *)
Fixpoint all_space (s : string) : Prop :=
  match s with
  | EmptyString => True
  | String a s' => is_space a = true /\ all_space s'
  end.

(** ** The client object (client.py, config.py) *)

Module Config.

(** [HttpSettings]: its two defaults are read from the environment when the
    module is loaded. *)
Record HttpSettings := mkHttpSettings {
  timeout : Z;
  user_agent : string
}.

(** [BASE_URL_WEBMASTERS] *)
Definition BASE_URL_WEBMASTERS : string :=
  "https://www.googleapis.com/webmasters/v3".

End Config.

(** The state [__init__] sets up.  [_session_headers] are the headers the
    client puts on its session. *)
Record GSCClient := mkGSCClient {
  _access_token : string;
  _timeout : Z;
  _user_agent : string;
  _session_headers : gmap string string
}.

(** [GSCClient.__init__], lines 29-47: [timeout or HTTP_SETTINGS.timeout],
    [user_agent or HTTP_SETTINGS.user_agent], then the four headers. *)
Definition GSCClient_init (HTTP_SETTINGS : Config.HttpSettings)
    (access_token : string) (timeout_arg : option Z)
    (user_agent_arg : option string) : GSCClient :=
  let t := match timeout_arg with
           | Some t => if t =? 0 then Config.timeout HTTP_SETTINGS else t
           | None => Config.timeout HTTP_SETTINGS
           end in
  let ua := match user_agent_arg with
            | Some EmptyString | None => Config.user_agent HTTP_SETTINGS
            | Some u => u
            end in
  mkGSCClient access_token t ua
    {[ "Authorization" := "Bearer " +:+ access_token;
       "Accept" := "application/json";
       "Content-Type" := "application/json";
       "User-Agent" := ua ]}.

(** ** The bearer-token dependency (api/deps.py) *)

Record HTTPException := mkHTTPException {
  exc_status_code : Z;
  detail : string
}.

Definition HTTP_401_UNAUTHORIZED : Z := 401.

(** [get_client], lines 9-22.  [authorization] is the header value, [None]
    when the request has none. *)
Definition get_client (HTTP_SETTINGS : Config.HttpSettings)
    (authorization : option string) : GSCClient + HTTPException :=
  match authorization with
  | None | Some EmptyString =>
      inr (mkHTTPException HTTP_401_UNAUTHORIZED
             "Missing Authorization header")
  | Some a =>
      match py_split a with
      | [scheme; token] =>
          if bool_decide (py_lower scheme = "bearer") then
            match token with
            | EmptyString =>
                inr (mkHTTPException HTTP_401_UNAUTHORIZED
                       "Empty bearer token")
            | _ => inl (GSCClient_init HTTP_SETTINGS token None None)
            end
          else inr (mkHTTPException HTTP_401_UNAUTHORIZED
                      "Invalid Authorization header format")
      | _ => inr (mkHTTPException HTTP_401_UNAUTHORIZED
                    "Invalid Authorization header format")
      end
  end.

(** ** Percent-encoding ([requests.utils.quote], that is [urllib.parse.quote],
    called with [safe=""]) *)

(** The bytes that are never quoted: the ASCII letters and digits and
    [_.-~]. *)
Definition always_safe (b : Ascii.ascii) : bool :=
  let n := Ascii.N_of_ascii b in
  ((65 <=? n) && (n <=? 90) || (97 <=? n) && (n <=? 122)
   || (48 <=? n) && (n <=? 57)
   || (n =? 95) || (n =? 46) || (n =? 45) || (n =? 126))%N.

(** The characters [%] and [/]. *)
Definition percent : Ascii.ascii := Ascii.ascii_of_N 37.
Definition slash : Ascii.ascii := Ascii.ascii_of_N 47.

(** The upper-case hexadecimal digit of a value below 16. *)
Definition hex_digit (n : N) : Ascii.ascii :=
  Ascii.ascii_of_N (if (n <? 10)%N then 48 + n else 55 + n).

(** One byte: itself when safe, [%XX] otherwise. *)
Definition quote_byte (b : Ascii.ascii) : string :=
  if always_safe b then String b EmptyString
  else
    let n := Ascii.N_of_ascii b in
    String percent (String (hex_digit (n / 16))
                  (String (hex_digit (n mod 16)) EmptyString)).

(** The UTF-8 bytes of a code point below 256. *)
Definition utf8_char (a : Ascii.ascii) : list Ascii.ascii :=
  let n := Ascii.N_of_ascii a in
  if (n <? 128)%N then [a]
  else [Ascii.ascii_of_N (192 + n / 64); Ascii.ascii_of_N (128 + n mod 64)].

(** [s.encode("utf-8")] *)
Fixpoint encode_utf8 (s : string) : list Ascii.ascii :=
  match s with
  | EmptyString => []
  | String a s' => utf8_char a ++ encode_utf8 s'
  end.

(** [quote_from_bytes(bs, safe="")] *)
Fixpoint quote_from_bytes (bs : list Ascii.ascii) : string :=
  match bs with
  | [] => EmptyString
  | b :: bs => quote_byte b +:+ quote_from_bytes bs
  end.

(** [quote(s, safe="")] *)
Definition quote (s : string) : string := quote_from_bytes (encode_utf8 s).

(** Reading back the first byte of a quoted string. *)
Definition hex_value (c : Ascii.ascii) : option N :=
  let n := Ascii.N_of_ascii c in
  if ((48 <=? n) && (n <=? 57))%N then Some (n - 48)%N
  else if ((65 <=? n) && (n <=? 70))%N then Some (n - 55)%N
  else None.

Definition unquote_head (s : string) : option (Ascii.ascii * string) :=
  match s with
  | EmptyString => None
  | String c rest =>
      if Ascii.eqb c percent then
        match rest with
        | String h (String l rest') =>
            match hex_value h, hex_value l with
            | Some x, Some y => Some (Ascii.ascii_of_N (16 * x + y), rest')
            | _, _ => None
            end
        | _ => None
        end
      else Some (c, rest)
  end.

(** Reading back the first code point of a UTF-8 byte string. *)
Definition decode_head (bs : list Ascii.ascii)
    : option (Ascii.ascii * list Ascii.ascii) :=
  match bs with
  | [] => None
  | b :: rest =>
      let n := Ascii.N_of_ascii b in
      if (n <? 128)%N then Some (b, rest)
      else match rest with
           | c :: rest' =>
               Some (Ascii.ascii_of_N
                       ((n - 192) * 64 + (Ascii.N_of_ascii c - 128)), rest')
           | [] => None
           end
  end.

(** Every character of [s] passes [p]. *)
Fixpoint string_forall (p : Ascii.ascii -> bool) (s : string) : bool :=
  match s with
  | EmptyString => true
  | String a s' => p a && string_forall p s'
  end.

(** The characters a quoted string is made of. *)
Definition quoted_char (c : Ascii.ascii) : bool :=
  always_safe c || Ascii.eqb c percent.

Definition not_slash (c : Ascii.ascii) : bool := negb (Ascii.eqb c slash).

(** ** The API methods of the client (client.py, lines 143-184) *)

(** How a method of the client ends: with a value, with one of the typed
    errors of the executor, or with another exception. *)
Inductive CallResult (A : Type) :=
| Returned (a : A)
| Raised (e : GSCError)
| Escaped (e : pyexc).

Arguments Returned {A} a.
Arguments Raised {A} e.
Arguments Escaped {A} e.

(** What the outcome of [_request] becomes once [post] has run on the value
    it returned. *)
Definition lift_outcome {A} (post : pyval -> Raises A) (o : Outcome)
    : CallResult A :=
  match o with
  | Return v => match post v with
                | Value a => Returned a
                | Throw e => Escaped e
                end
  | Raise e => Raised e
  | Uncaught e => Escaped (Builtin e)
  end.

(** How a method that drops the returned value ends after a final response
    with a success status. *)
Definition parsed_then_dropped (c : CallResult ()) (tr : list Event)
    : Prop :=
  forall rs, last (responses tr) = Some rs ->
    is_success (status_code rs) ->
    (content rs = [] \/ is_Some (json rs) -> c = Returned ()) /\
    (content rs <> [] -> json rs = None ->
     c = Escaped (Builtin JSONDecodeError)).

Module Client.

(** [f"{BASE_URL_WEBMASTERS}/sites"] *)
Definition sites_url : string := Config.BASE_URL_WEBMASTERS +:+ "/sites".

(** [f"{BASE_URL_WEBMASTERS}/sites/{quote(site_url, safe='')}"] *)
Definition site_url_of (site_url : string) : string :=
  Config.BASE_URL_WEBMASTERS +:+ "/sites/" +:+ quote site_url.

(** [f"{...}/sites/{quote(site_url)}/searchAnalytics/query"] *)
Definition query_url_of (site_url : string) : string :=
  Config.BASE_URL_WEBMASTERS +:+ "/sites/" +:+ quote site_url
    +:+ "/searchAnalytics/query".

(** [f"{...}/sites/{quote(site_url)}/sitemaps"] *)
Definition sitemaps_url_of (site_url : string) : string :=
  Config.BASE_URL_WEBMASTERS +:+ "/sites/" +:+ quote site_url
    +:+ "/sitemaps".

(** [f"{...}/sites/{quote(site_url)}/sitemaps/{quote(feedpath)}"] *)
Definition sitemap_url_of (site_url feedpath : string) : string :=
  Config.BASE_URL_WEBMASTERS +:+ "/sites/" +:+ quote site_url
    +:+ "/sitemaps/" +:+ quote feedpath.

Section Methods.

Variable float_of_str : string -> option pyfloat.
Variable py_repr : pyval -> string.
Variable float_of_big_int : Z -> option pyfloat.
Variable W : Type.
Variable session_request : Request -> W -> Response * W.

(** [post(self._request(method, url, json_body=json_body))]: what
    [_request] raises passes through, and so does what [post] raises. *)
Definition request_then {A} (post : pyval -> Raises A) (fuel : nat)
    (self : GSCClient) (method url : string) (json_body : option pyval)
    (w : W) : option (CallResult A * list Event * W) :=
  '(o, tr, w') ← _request float_of_str py_repr session_request fuel
                   (_timeout self) method url json_body w;
  Some (lift_outcome post o, tr, w').

(** [search_analytics_query], lines 144-148. *)
Definition search_analytics_query (fuel : nat) (self : GSCClient)
    (site_url : string) (req : Requests.SearchAnalyticsQueryRequest) :=
  request_then
    (Responses.SearchAnalyticsQueryResponse_from_dict
       float_of_str float_of_big_int)
    fuel self "POST" (query_url_of site_url)
    (Some (VDict (Requests.to_dict req))).

(** [sites_list], lines 151-153. *)
Definition sites_list (fuel : nat) (self : GSCClient) :=
  request_then Value fuel self "GET" sites_url None.

(** [sites_add], lines 155-165: the value [_request] returns is dropped. *)
Definition sites_add (fuel : nat) (self : GSCClient) (site_url : string) :=
  request_then (fun _ => Value ()) fuel self "PUT" (site_url_of site_url)
    None.

(** [sites_get], lines 167-170. *)
Definition sites_get (fuel : nat) (self : GSCClient) (site_url : string) :=
  request_then Value fuel self "GET" (site_url_of site_url) None.

(** [sitemaps_list], lines 173-175. *)
Definition sitemaps_list (fuel : nat) (self : GSCClient)
    (site_url : string) :=
  request_then Value fuel self "GET" (sitemaps_url_of site_url) None.

(** [sitemaps_submit], lines 177-179. *)
Definition sitemaps_submit (fuel : nat) (self : GSCClient)
    (site_url feedpath : string) :=
  request_then Value fuel self "PUT" (sitemap_url_of site_url feedpath)
    None.

(** [sitemaps_delete], lines 181-184: the value [_request] returns is
    dropped. *)
Definition sitemaps_delete (fuel : nat) (self : GSCClient)
    (site_url feedpath : string) :=
  request_then (fun _ => Value ()) fuel self "DELETE"
    (sitemap_url_of site_url feedpath) None.

End Methods.

End Client.

(** ** The utilities (api/sites.py, api/sitemaps.py,
    api/search_analytics.py) *)

(** Mapping the value a method returns, keeping what it raises. *)
Definition map_result {A B W} (f : A -> B)
    (r : option (CallResult A * list Event * W))
    : option (CallResult B * list Event * W) :=
  '(c, tr, w') ← r;
  Some (match c with
        | Returned a => Returned (f a)
        | Raised e => Raised e
        | Escaped e => Escaped e
        end, tr, w').

Module Sites.

Section Utilities.

Variable float_of_str : string -> option pyfloat.
Variable py_repr : pyval -> string.
Variable W : Type.
Variable session_request : Request -> W -> Response * W.

(** [list_sites] *)
Definition list_sites (fuel : nat) (client : GSCClient) (w : W) :=
  Client.sites_list float_of_str py_repr W session_request fuel client w.

End Utilities.

End Sites.

Module Sitemaps.

Record SubmitBody := mkSubmitBody {
  siteUrl : string;
  feedpath : string
}.

Section Utilities.

Variable float_of_str : string -> option pyfloat.
Variable py_repr : pyval -> string.
Variable W : Type.
Variable session_request : Request -> W -> Response * W.

(** [list_sitemaps_util] *)
Definition list_sitemaps_util (fuel : nat) (client : GSCClient)
    (siteUrl : string) (w : W) :=
  Client.sitemaps_list float_of_str py_repr W session_request
    fuel client siteUrl w.

(** [submit_sitemap_util] *)
Definition submit_sitemap_util (fuel : nat) (client : GSCClient)
    (body : SubmitBody) (w : W) :=
  Client.sitemaps_submit float_of_str py_repr W session_request
    fuel client (siteUrl body) (feedpath body) w.

(** [delete_sitemap_util]: the dict with ["status"] set to ["deleted"], once
    [sitemaps_delete] has returned. *)
Definition delete_sitemap_util (fuel : nat) (client : GSCClient)
    (siteUrl feedpath : string) (w : W) :=
  map_result (fun _ : () => VDict {[ "status" := VStr "deleted" ]})
    (Client.sitemaps_delete float_of_str py_repr W session_request
       fuel client siteUrl feedpath w).

End Utilities.

End Sitemaps.

Module SearchAnalytics.

(** The schemas of the module, their fields already validated. *)
Record DimensionFilter := mkDimensionFilter {
  dimension : string;
  operator : string;
  expression : string
}.

Record DimensionFilterGroup := mkDimensionFilterGroup {
  filters : list DimensionFilter;
  groupType : string
}.

Record SearchAnalyticsQueryBody := mkSearchAnalyticsQueryBody {
  siteUrl : string;
  startDate : string;
  endDate : string;
  dimensions : option (list string);
  rowLimit : option Z;
  startRow : option Z;
  dimensionFilterGroups : option (list DimensionFilterGroup);
  aggregationType : option string;
  dataState : option string
}.

(** Lines 48-58: the schema groups as dataclass groups, [None] unless the
    list is non-empty. *)
Definition df_groups_of (body : SearchAnalyticsQueryBody)
    : option (list Requests.DimensionFilterGroup) :=
  match dimensionFilterGroups body with
  | Some (g :: gs) =>
      Some ((fun g =>
               Requests.mkDimensionFilterGroup
                 ((fun f => Requests.mkDimensionFilter
                              (dimension f) (operator f) (expression f))
                    <$> filters g)
                 (groupType g)) <$> g :: gs)
  | _ => None
  end.

(** Lines 60-69: the dataclass request built from the body. *)
Definition request_of_body (body : SearchAnalyticsQueryBody)
    : Requests.SearchAnalyticsQueryRequest :=
  Requests.mkSearchAnalyticsQueryRequest
    (startDate body) (endDate body)
    (default [] (dimensions body))
    (rowLimit body) (startRow body) None
    (df_groups_of body)
    (aggregationType body) (dataState body).

(** Lines 74-80: one row as a plain dict. *)
Definition row_to_dict (r : Responses.SearchAnalyticsRow) : pyval :=
  VDict {[ "keys" := Responses.keys r;
           "clicks" := VFloat (Responses.clicks r);
           "impressions" := VFloat (Responses.impressions r);
           "ctr" := VFloat (Responses.ctr r);
           "position" := VFloat (Responses.position r) ]}.

(** Lines 72-84: the response as a plain dict. *)
Definition response_to_dict (resp : Responses.SearchAnalyticsQueryResponse)
    : pyval :=
  VDict {[ "rows" := VList (row_to_dict <$> Responses.rows resp);
           "responseAggregationType" :=
             Responses.response_aggregation_type resp ]}.

(** A float that reads back as itself through [float(x or 0)]: any value but
    a zero other than [0.0] (in a float, the negative zero). *)
Definition reads_back (f : pyfloat) : Prop :=
  match f with
  | Fin q => Qeq_bool q 0 = true -> q = 0%Q
  | _ => True
  end.

(** A row whose keys are truthy or the empty list, as
    [SearchAnalyticsRow.from_dict] builds them, and whose metrics read
    back. *)
Definition row_normal (r : Responses.SearchAnalyticsRow) : Prop :=
  (Responses.keys r = VList [] \/ truthy (Responses.keys r) = true) /\
  reads_back (Responses.clicks r) /\ reads_back (Responses.impressions r) /\
  reads_back (Responses.ctr r) /\ reads_back (Responses.position r).

Section Utilities.

Variable float_of_str : string -> option pyfloat.
Variable py_repr : pyval -> string.
Variable float_of_big_int : Z -> option pyfloat.
Variable W : Type.
Variable session_request : Request -> W -> Response * W.

(** [search_analytics_query_util], lines 42-84. *)
Definition search_analytics_query_util (fuel : nat) (client : GSCClient)
    (body : SearchAnalyticsQueryBody) (w : W) :=
  map_result response_to_dict
    (Client.search_analytics_query float_of_str py_repr float_of_big_int
       W session_request fuel client (siteUrl body)
       (request_of_body body) w).

End Utilities.

End SearchAnalytics.

(** ** Concrete data for the API methods *)

(** [HTTP_SETTINGS] when the environment sets neither variable:
    [DEFAULT_TIMEOUT] and [DEFAULT_USER_AGENT] of config.py. *)
Definition default_settings : Config.HttpSettings :=
  Config.mkHttpSettings 30 "deal-scale-gsc-sdk/0.1".

(** The client of the test suite. *)
Definition test_client : GSCClient :=
  GSCClient_init default_settings "test-token" None None.


(** A stand-in for the conversion of integers beyond [2^53] in concrete runs,
    where none occurs. *)
Definition big_int_unused (z : Z) : option pyfloat := None.

(** The double quote, and a JSON string literal without escapes. *)
Definition dquote : string := String (Ascii.ascii_of_N 34) EmptyString.

Definition jstr (s : string) : string := dquote +:+ s +:+ dquote.

(** A 403 with the error body of the API: message and one sub-error. *)
Definition quota_exceeded : Response :=
  json_response 403
    ("{" +:+ jstr "error" +:+ ": {" +:+ jstr "message" +:+ ": "
       +:+ jstr "Quota exceeded" +:+ ", " +:+ jstr "errors" +:+ ": [{"
       +:+ jstr "reason" +:+ ": " +:+ jstr "quotaExceeded" +:+ "}]}}")
    (VDict {[ "error" :=
                VDict {[ "message" := VStr "Quota exceeded";
                         "errors" :=
                           VList [VDict {[ "reason" :=
                                             VStr "quotaExceeded" ]}] ]} ]}).

(** A 400 in the style of an OAuth endpoint: ["error"] is a string. *)
Definition invalid_grant : Response :=
  json_response 400
    ("{" +:+ jstr "error" +:+ ": " +:+ jstr "invalid_grant" +:+ ", "
       +:+ jstr "message" +:+ ": " +:+ jstr "Token expired" +:+ "}")
    (VDict {[ "error" := VStr "invalid_grant";
              "message" := VStr "Token expired" ]}).

(** One row of a query response, as JSON data and as a row object. *)
Definition row_data : pyval :=
  VDict {[ "keys" := VList [VStr "query A"]; "clicks" := VInt 10;
           "impressions" := VInt 100 ]}.

Definition row_object : Responses.SearchAnalyticsRow :=
  Responses.mkSearchAnalyticsRow (VList [VStr "query A"])
    (Fin 10) (Fin 100) (Fin 0) (Fin 0).

Definition rows_data : gmap string pyval :=
  {[ "rows" := VList [row_data];
     "responseAggregationType" := VStr "auto" ]}.

(** A query body of the utility. *)
Definition july_body : SearchAnalytics.SearchAnalyticsQueryBody :=
  SearchAnalytics.mkSearchAnalyticsQueryBody
    "https://example.com/" "2025-07-01" "2025-07-31"
    (Some ["QUERY"; "PAGE"]) (Some 250) None None None None.

(** ** One pass of the loop *)

Section HandleFacts.

Variable float_of_str : string -> option pyfloat.
Variable py_repr : pyval -> string.

#[local] Abbreviation pass := (handle float_of_str py_repr).

Lemma sleep_then_retry_Continue d b slept b' :
  sleep_then_retry d b = Continue slept b' ->
  time_sleep d = inl slept /\ b' = next_backoff b.
Proof.
  unfold sleep_then_retry. destruct (time_sleep d); intros H; inversion H; auto.
Qed.

Lemma time_sleep_inl d slept :
  time_sleep d = inl slept -> d = Fin slept /\ (0 <= slept)%Q.
Proof.
  destruct d as [q| |]; simpl; try discriminate.
  destruct (Qle_bool (- sleep_max) q && Qle_bool q sleep_max);
    [|discriminate].
  destruct (Qle_bool 0 q) eqn:E; intros H; inversion H; subst.
  split; [reflexivity | now apply Qle_bool_iff].
Qed.


(** A success status ends the pass with the parsed body, an empty dict, or
    the parser's exception. *)
Lemma handle_success n b rs :
  is_success (status_code rs) ->
  pass n b rs =
    Done (match content rs with
          | [] => Return (VDict ∅)
          | _ :: _ => match json rs with
                      | Some v => Return v
                      | None => Uncaught JSONDecodeError
                      end
          end).
Proof.
  intros [H1 H2]. unfold handle.
  apply Z.leb_le in H1. apply Z.ltb_lt in H2. rewrite H1, H2. simpl.
  destruct (content rs); [reflexivity|]. destruct (json rs); reflexivity.
Qed.

Lemma not_success_test sc :
  ~ is_success sc -> (200 <=? sc) && (sc <? 300) = false.
Proof.
  intros H. destruct (200 <=? sc) eqn:E1; [|reflexivity].
  destruct (sc <? 300) eqn:E2; [|reflexivity].
  exfalso. apply H. split; [now apply Z.leb_le | now apply Z.ltb_lt].
Qed.

Lemma handle_401 n b rs :
  status_code rs = 401 ->
  pass n b rs =
    Done (Raise (AuthError ("Unauthorized: " +:+
                            py_str py_repr (fst (parse_error rs))))).
Proof.
  intros H. unfold handle. rewrite H. simpl.
  destruct (parse_error rs); reflexivity.
Qed.

Lemma handle_429_retry n b rs :
  status_code rs = 429 -> (n <= 5)%nat ->
  pass n b rs =
    match retry_after float_of_str rs b with
    | Some sleep_for => sleep_then_retry sleep_for b
    | None => Done (Uncaught ValueError)
    end.
Proof.
  intros H Hn. unfold handle. rewrite H. simpl.
  destruct (parse_error rs). apply Nat.leb_le in Hn. now rewrite Hn.
Qed.

Lemma handle_429_exhausted n b rs :
  status_code rs = 429 -> (5 < n)%nat ->
  pass n b rs =
    Done (Raise (RateLimitError 429 (fst (parse_error rs))
                                (snd (parse_error rs)))).
Proof.
  intros H Hn. unfold handle. rewrite H. simpl.
  destruct (parse_error rs). apply Nat.leb_gt in Hn. now rewrite Hn.
Qed.

Lemma server_error_tests sc :
  500 <= sc < 600 ->
  (200 <=? sc) && (sc <? 300) = false /\ (sc =? 401) = false /\
  (sc =? 429) = false /\ (500 <=? sc) && (sc <? 600) = true.
Proof.
  intros H. repeat split.
  - apply not_success_test. unfold is_success. lia.
  - apply Z.eqb_neq. lia.
  - apply Z.eqb_neq. lia.
  - apply andb_true_intro. split; [apply Z.leb_le | apply Z.ltb_lt]; lia.
Qed.

Lemma handle_5xx_retry n b rs :
  500 <= status_code rs < 600 -> (n <= 5)%nat ->
  pass n b rs = sleep_then_retry (Fin b) b.
Proof.
  intros H Hn. unfold handle.
  destruct (server_error_tests _ H) as (-> & -> & -> & ->).
  destruct (parse_error rs). apply Nat.leb_le in Hn. now rewrite Hn.
Qed.

Lemma handle_5xx_exhausted n b rs :
  500 <= status_code rs < 600 -> (5 < n)%nat ->
  pass n b rs =
    Done (Raise (RetryableError (status_code rs) (fst (parse_error rs))
                                (snd (parse_error rs)))).
Proof.
  intros H Hn. unfold handle.
  destruct (server_error_tests _ H) as (-> & -> & -> & ->).
  destruct (parse_error rs). apply Nat.leb_gt in Hn. now rewrite Hn.
Qed.

Lemma handle_other n b rs :
  ~ is_success (status_code rs) -> status_code rs <> 401 ->
  ~ is_retryable (status_code rs) ->
  pass n b rs =
    Done (Raise (ApiError (status_code rs) (fst (parse_error rs))
                          (snd (parse_error rs)))).
Proof.
  intros Hs H401 Hr. unfold handle.
  rewrite (not_success_test _ Hs).
  destruct (parse_error rs) as [m r].
  destruct (Z.eqb_spec (status_code rs) 401); [contradiction|].
  destruct (Z.eqb_spec (status_code rs) 429) as [E|_].
  { exfalso. apply Hr. now left. }
  destruct ((500 <=? status_code rs) && (status_code rs <? 600)) eqn:E;
    [|reflexivity].
  exfalso. apply Hr. right. apply andb_prop in E as [E1 E2].
  split; [now apply Z.leb_le | now apply Z.ltb_lt].
Qed.

(** Every status falls in exactly one of the branches of the pass. *)
Lemma status_cases sc :
  is_success sc \/
  (~ is_success sc /\
   (sc = 401 \/ sc = 429 \/ 500 <= sc < 600 \/
    (sc <> 401 /\ ~ is_retryable sc))).
Proof.
  unfold is_success, is_retryable. lia.
Qed.

(** The pass goes round again only on a retryable status within the budget;
    the next backoff is then the doubled, capped one, whatever the response
    carried. *)
Lemma handle_Continue n b rs slept b' :
  pass n b rs = Continue slept b' ->
  (n <= 5)%nat /\ is_retryable (status_code rs) /\
  b' = next_backoff b /\ (0 <= slept)%Q /\
  (if status_code rs =? 429
   then retry_after float_of_str rs b = Some (Fin slept)
   else slept = b).
Proof.
  intros H.
  destruct (status_cases (status_code rs))
    as [Hs | [Hs [E | [E | [E | [E1 E2]]]]]].
  - rewrite handle_success in H by assumption. discriminate.
  - rewrite handle_401 in H by assumption. discriminate.
  - destruct (le_lt_dec n 5) as [Hn|Hn].
    + rewrite handle_429_retry in H by assumption.
      destruct (retry_after float_of_str rs b) as [f|] eqn:Ef;
        [|discriminate].
      apply sleep_then_retry_Continue in H as [Hsl ->].
      apply time_sleep_inl in Hsl as [-> Hpos].
      rewrite E. simpl. repeat split; auto. now left.
    + rewrite handle_429_exhausted in H by assumption. discriminate.
  - destruct (le_lt_dec n 5) as [Hn|Hn].
    + rewrite handle_5xx_retry in H by assumption.
      apply sleep_then_retry_Continue in H as [Hsl ->].
      apply time_sleep_inl in Hsl as [Hf Hpos]. inversion Hf; subst.
      destruct (server_error_tests _ E) as (_ & _ & -> & _).
      repeat split; auto. now right.
    + rewrite handle_5xx_exhausted in H by assumption. discriminate.
  - rewrite handle_other in H by assumption. discriminate.
Qed.

End HandleFacts.

(** ** The loop *)

Section LoopFacts.

Variable float_of_str : string -> option pyfloat.
Variable py_repr : pyval -> string.
Variable W : Type.
Variable session_request : Request -> W -> Response * W.

#[local] Abbreviation pass := (handle float_of_str py_repr).
#[local] Abbreviation run := (loop float_of_str py_repr session_request).

(** One unfolding of the loop, in the two shapes a pass can take. *)
Lemma loop_S fuel rq a b w o tr w' :
  run (S fuel) rq a b w = Some (o, tr, w') ->
  let rs := fst (session_request rq w) in
  let w1 := snd (session_request rq w) in
  (pass (S a) b rs = Done o /\ tr = [Attempt (S a) b rq rs] /\ w' = w1) \/
  (exists slept b' tr1,
     pass (S a) b rs = Continue slept b' /\
     run fuel rq (S a) b' w1 = Some (o, tr1, w') /\
     tr = Attempt (S a) b rq rs :: Sleep slept :: tr1).
Proof.
  simpl. destruct (session_request rq w) as [rs w1]. simpl.
  destruct (handle float_of_str py_repr (S a) b rs) as [slept b'|o1] eqn:Hh.
  - destruct (loop float_of_str py_repr session_request fuel rq (S a) b' w1)
      as [[[o2 tr1] w2]|] eqn:Hl; simpl; intros H; inversion H; subst.
    right. exists slept, b', tr1. auto.
  - intros H. inversion H; subst. left. auto.
Qed.

Ltac loop_cases H :=
  apply loop_S in H; simpl in H;
  destruct H as [(Hpass & -> & ->) | (slept & b1 & tr1 & Hpass & Hrun & ->)].

(** The loop ends: past attempt 5 every pass is final, so [6 - attempts]
    passes always suffice. *)
Lemma loop_total fuel rq a b w :
  (1 <= fuel)%nat -> (6 <= fuel + a)%nat -> is_Some (run fuel rq a b w).
Proof.
  revert a b w. induction fuel as [|fuel IH]; intros a b w H1 H6; [lia|].
  simpl. destruct (session_request rq w) as [rs w1].
  destruct (handle float_of_str py_repr (S a) b rs) as [slept b'|o1] eqn:Hh.
  - apply handle_Continue in Hh as (Hn & _).
    destruct (IH (S a) b' w1) as [[[o tr] w2] ->]; [lia | lia |].
    simpl. eauto.
  - eauto.
Qed.

(** More fuel does not change a finished run. *)
Lemma loop_fuel_mono fuel fuel' rq a b w r :
  run fuel rq a b w = Some r -> (fuel <= fuel')%nat ->
  run fuel' rq a b w = Some r.
Proof.
  revert fuel' a b w r.
  induction fuel as [|fuel IH]; intros fuel' a b w r H Hle; [discriminate|].
  destruct fuel' as [|fuel']; [lia|].
  simpl in *. destruct (session_request rq w) as [rs w1].
  destruct (handle float_of_str py_repr (S a) b rs) as [slept b'|o1];
    [|assumption].
  destruct (loop float_of_str py_repr session_request fuel rq (S a) b' w1)
    as [r1|] eqn:Hl; [|discriminate].
  rewrite (IH fuel' _ _ _ _ Hl) by lia. assumption.
Qed.

(** The attempt counter goes up by one per pass. *)
Lemma loop_counters fuel rq a b w o tr w' :
  run fuel rq a b w = Some (o, tr, w') ->
  counters tr = seq (S a) (length (counters tr)).
Proof.
  revert a b w tr. induction fuel as [|fuel IH]; intros a b w tr H;
    [discriminate|].
  loop_cases H; [reflexivity|].
  simpl. f_equal. eapply IH; eassumption.
Qed.

(** A pass that is not the last one has a counter of at most 5. *)
Lemma loop_length fuel rq a b w o tr w' :
  run fuel rq a b w = Some (o, tr, w') -> (a <= 5)%nat ->
  (1 <= length (responses tr) <= 6 - a)%nat.
Proof.
  revert a b w tr. induction fuel as [|fuel IH]; intros a b w tr H Ha;
    [discriminate|].
  loop_cases H; [simpl; lia|].
  apply handle_Continue in Hpass as (Hn & _).
  specialize (IH _ _ _ _ Hrun Hn). simpl. lia.
Qed.

(** Every pass sends the request the loop was entered with. *)
Lemma loop_requests fuel rq a b w o tr w' :
  run fuel rq a b w = Some (o, tr, w') -> Forall (eq rq) (requests tr).
Proof.
  revert a b w tr. induction fuel as [|fuel IH]; intros a b w tr H;
    [discriminate|].
  loop_cases H; simpl; constructor; eauto.
Qed.

(** The backoff values of the passes are the doubling, capped ones. *)
Lemma loop_backoffs fuel rq a b w o tr w' :
  run fuel rq a b w = Some (o, tr, w') ->
  backoffs tr = schedule_from b (length (backoffs tr)).
Proof.
  revert a b w tr. induction fuel as [|fuel IH]; intros a b w tr H;
    [discriminate|].
  loop_cases H; [reflexivity|].
  apply handle_Continue in Hpass as (_ & _ & -> & _).
  simpl. f_equal. eapply IH; eassumption.
Qed.

(** The outcome is the one of the last pass; all passes before it met a
    retryable status. *)
Lemma loop_last fuel rq a b w o tr w' :
  run fuel rq a b w = Some (o, tr, w') ->
  exists n b' rs,
    last tr = Some (Attempt n b' rq rs) /\ pass n b' rs = Done o /\
    n = (a + length (responses tr))%nat /\
    last (responses tr) = Some rs.
Proof.
  revert a b w tr. induction fuel as [|fuel IH]; intros a b w tr H;
    [discriminate|].
  loop_cases H.
  - eexists _, _, _. simpl. repeat split; [eassumption | lia].
  - destruct (IH _ _ _ _ Hrun) as (n & b' & rs & Hl & Hp & Hn & Hr).
    exists n, b', rs. repeat split; auto.
    + destruct tr1; [discriminate|]. exact Hl.
    + simpl. lia.
    + simpl. destruct (responses tr1); [discriminate|]. exact Hr.
Qed.

End LoopFacts.

(** ** The log and the schedule *)

Lemma log_lengths (tr : list Event) :
  length (requests tr) = length (responses tr) /\
  length (backoffs tr) = length (responses tr) /\
  length (counters tr) = length (responses tr).
Proof.
  induction tr as [|[n b rq rs|d] tr (IH1 & IH2 & IH3)]; simpl; auto.
Qed.

Lemma schedule_from_take (k n : nat) (b : Q) :
  (k <= n)%nat -> schedule_from b k = take k (schedule_from b n).
Proof.
  revert n b. induction k as [|k IH]; intros n b H; [reflexivity|].
  destruct n as [|n]; [lia|]. simpl. f_equal. apply IH. lia.
Qed.

(** From 1 the schedule is 1, 2, 4, 8, 16, 16. *)
Lemma schedule_from_1 : schedule_from 1 6 = [1; 2; 4; 8; 16; 16]%Q.
Proof. reflexivity. Qed.

(** Once at the cap the backoff stays there. *)
Lemma schedule_from_cap (k : nat) :
  schedule_from max_backoff k = replicate k max_backoff.
Proof.
  induction k as [|k IH]; [reflexivity|].
  simpl. f_equal. exact IH.
Qed.

(** Doubling with the cap never lowers a backoff between 0 and the cap. *)
Lemma next_backoff_grows (b : Q) :
  (0 <= b)%Q -> (b <= max_backoff)%Q ->
  (b <= next_backoff b)%Q /\ (next_backoff b <= max_backoff)%Q.
Proof.
  intros H0 H16. unfold next_backoff. split.
  - apply Q.min_glb; [lra | assumption].
  - apply Q.le_min_r.
Qed.

(** ** Whole calls *)

Section RequestFacts.

Variable float_of_str : string -> option pyfloat.
Variable py_repr : pyval -> string.
Variable W : Type.
Variable session_request : Request -> W -> Response * W.

#[local] Abbreviation pass := (handle float_of_str py_repr).
#[local] Abbreviation call := (_request float_of_str py_repr session_request).

(** Six passes of fuel are enough for any call; the call then ends in its
    last pass, after between one and six attempts that all sent the same
    request under the counters 1, 2, ... and the backoffs of the schedule. *)
Lemma request_run fuel timeout method url body w :
  (6 <= fuel)%nat ->
  exists o tr w' n b rs,
    call fuel timeout method url body w = Some (o, tr, w') /\
    last (responses tr) = Some rs /\
    last tr = Some (Attempt n b (mkRequest method url body timeout) rs) /\
    pass n b rs = Done o /\
    n = length (responses tr) /\ (1 <= n <= 6)%nat /\
    Forall (eq (mkRequest method url body timeout)) (requests tr) /\
    counters tr = seq 1 n /\
    backoffs tr = schedule_from 1 n.
Proof.
  intros Hf. unfold _request.
  destruct (loop_total float_of_str py_repr W session_request fuel
              (mkRequest method url body timeout) 0 1 w)
    as [[[o tr] w'] Hrun]; [lia | lia |].
  destruct (loop_last _ _ _ _ _ _ _ _ _ _ _ _ Hrun)
    as (n & b & rs & Hl & Hp & Hn & Hr).
  pose proof (loop_length _ _ _ _ _ _ _ _ _ _ _ _ Hrun) as Hlen.
  pose proof (loop_requests _ _ _ _ _ _ _ _ _ _ _ _ Hrun) as Hrq.
  pose proof (loop_counters _ _ _ _ _ _ _ _ _ _ _ _ Hrun) as Hc.
  pose proof (loop_backoffs _ _ _ _ _ _ _ _ _ _ _ _ Hrun) as Hb.
  destruct (log_lengths tr) as (_ & Lb & Lc).
  rewrite Lc in Hc. rewrite Lb in Hb. simpl in Hn. subst n.
  exists o, tr, w', (length (responses tr)), b, rs.
  repeat split; auto; lia.
Qed.

(** A call whose first response is final. *)
Lemma request_first_final fuel timeout method url body w o :
  pass 1 1 (fst (session_request (mkRequest method url body timeout) w))
    = Done o ->
  call (S fuel) timeout method url body w =
    Some (o,
          [Attempt 1 1 (mkRequest method url body timeout)
             (fst (session_request (mkRequest method url body timeout) w))],
          snd (session_request (mkRequest method url body timeout) w)).
Proof.
  unfold _request. simpl.
  destruct (session_request (mkRequest method url body timeout) w)
    as [rs w1]. simpl.
  intros ->. reflexivity.
Qed.

(** What a final pass on a retryable status can be: within the budget only an
    exception from reading [Retry-After] or from [time.sleep]; past it the
    typed error of the status. *)
Lemma handle_retryable_Done n b rs o :
  is_retryable (status_code rs) -> pass n b rs = Done o ->
  ((n <= 5)%nat /\ exists x, o = Uncaught x) \/
  ((5 < n)%nat /\
   o = Raise ((if status_code rs =? 429 then RateLimitError
               else RetryableError)
                (status_code rs) (fst (parse_error rs))
                (snd (parse_error rs)))).
Proof.
  intros Hr H. destruct (le_lt_dec n 5) as [Hn|Hn]; [left|right]; split; auto.
  - destruct Hr as [E|E].
    + rewrite handle_429_retry in H by assumption.
      destruct (retry_after float_of_str rs b) as [f|].
      * unfold sleep_then_retry in H. destruct (time_sleep f);
          inversion H; eauto.
      * inversion H; eauto.
    + rewrite handle_5xx_retry in H by assumption.
      unfold sleep_then_retry in H. destruct (time_sleep (Fin b));
        inversion H; eauto.
  - destruct Hr as [E|E].
    + rewrite handle_429_exhausted in H by assumption.
      rewrite E. simpl. now inversion H.
    + rewrite handle_5xx_exhausted in H by assumption.
      destruct (server_error_tests _ E) as (_ & _ & -> & _).
      now inversion H.
Qed.

(** The retry ceiling, for the calls that no exception from the
    [Retry-After] header or from [time.sleep] cuts short: when the final
    response is retryable too, it is the sixth, and the call raises the typed
    error of its status with the message and reason parsed from it. *)
Lemma retry_ceiling fuel timeout method url body w :
  (6 <= fuel)%nat ->
  exists o tr w',
    call fuel timeout method url body w = Some (o, tr, w') /\
    forall rs,
      last (responses tr) = Some rs -> is_retryable (status_code rs) ->
      (forall x, o <> Uncaught x) ->
      length (responses tr) = 6%nat /\
      o = Raise ((if status_code rs =? 429 then RateLimitError
                  else RetryableError)
                   (status_code rs) (fst (parse_error rs))
                   (snd (parse_error rs))).
Proof.
  intros Hf.
  destruct (request_run fuel timeout method url body w Hf)
    as (o & tr & w' & n & b & rs & Hrun & Hl & _ & Hp & Hn & Hb & _).
  exists o, tr, w'. split; [assumption|].
  intros rs' Hl' Hr Hu. rewrite Hl in Hl'. inversion Hl'; subst rs'.
  destruct (handle_retryable_Done _ _ _ _ Hr Hp) as [(_ & x & ->)|(H5 & ->)].
  - exfalso. now apply (Hu x).
  - split; [lia | reflexivity].
Qed.

End RequestFacts.

(** ** Typed errors *)

Section Classification.

Variable float_of_str : string -> option pyfloat.
Variable py_repr : pyval -> string.

#[local] Abbreviation pass := (handle float_of_str py_repr).

Lemma category_of_status_5xx sc :
  500 <= sc < 600 -> category_of_status sc = CRetryable.
Proof.
  intros H. unfold category_of_status.
  destruct (server_error_tests _ H) as (_ & -> & -> & ->). reflexivity.
Qed.

Lemma category_of_status_other sc :
  sc <> 401 -> ~ is_retryable sc -> category_of_status sc = CApi.
Proof.
  intros H401 Hr. unfold category_of_status.
  destruct (Z.eqb_spec sc 401); [contradiction|].
  destruct (Z.eqb_spec sc 429) as [E|_]; [exfalso; apply Hr; now left|].
  destruct ((500 <=? sc) && (sc <? 600)) eqn:E; [|reflexivity].
  exfalso. apply Hr. right. apply andb_prop in E as [E1 E2].
  split; [now apply Z.leb_le | now apply Z.ltb_lt].
Qed.

(** A typed error comes from a non-success response, is the error of that
    response, and for a retried status comes only after the fifth attempt. *)
Lemma handle_Raise n b rs e :
  pass n b rs = Done (Raise e) ->
  ~ is_success (status_code rs) /\
  e = error_of_response py_repr rs /\
  raises_at n (status_code rs).
Proof.
  intros H. unfold error_of_response, raises_at.
  destruct (status_cases (status_code rs))
    as [Hs | [Hs [E | [E | [E | [E1 E2]]]]]].
  - rewrite handle_success in H by assumption.
    destruct (content rs); [discriminate|]. destruct (json rs); discriminate.
  - rewrite handle_401 in H by assumption. inversion H.
    split; [assumption|]. rewrite E. simpl.
    split; [reflexivity|]. unfold is_retryable. lia.
  - assert (Hr : is_retryable (status_code rs)) by now left.
    destruct (handle_retryable_Done _ _ _ _ _ _ Hr H)
      as [(_ & x & Hx)|(H5 & Ho)]; [discriminate|].
    inversion Ho. split; [assumption|]. split; [|intros _; exact H5].
    rewrite E. reflexivity.
  - assert (Hr : is_retryable (status_code rs)) by now right.
    destruct (handle_retryable_Done _ _ _ _ _ _ Hr H)
      as [(_ & x & Hx)|(H5 & Ho)]; [discriminate|].
    inversion Ho. split; [assumption|]. split; [|intros _; exact H5].
    rewrite (category_of_status_5xx _ E).
    destruct (server_error_tests _ E) as (_ & _ & -> & _). reflexivity.
  - rewrite handle_other in H by assumption. inversion H.
    split; [assumption|]. split; [|intros Hr; contradiction].
    rewrite (category_of_status_other _ E1 E2). reflexivity.
Qed.

Lemma error_of_response_category rs :
  err_category (error_of_response py_repr rs)
  = category_of_status (status_code rs).
Proof.
  unfold error_of_response.
  destruct (category_of_status (status_code rs)); reflexivity.
Qed.

End Classification.

(** ** Sleeps *)

Section Sleeps.

Variable float_of_str : string -> option pyfloat.
Variable py_repr : pyval -> string.
Variable W : Type.
Variable session_request : Request -> W -> Response * W.

#[local] Abbreviation pass := (handle float_of_str py_repr).

Lemma handle_Continue_sleep_rule n b rs slept b' :
  pass n b rs = Continue slept b' -> sleep_rule float_of_str rs b slept.
Proof.
  intros H. apply handle_Continue in H as (_ & _ & _ & _ & H).
  unfold sleep_rule. destruct (status_code rs =? 429); [|assumption].
  unfold retry_after in H.
  destruct (headers rs !! "Retry-After"); [assumption|].
  inversion H. reflexivity.
Qed.

Lemma loop_sleeps fuel rq a b w o tr w' :
  loop float_of_str py_repr session_request fuel rq a b w = Some (o, tr, w') ->
  sleeps_explained float_of_str tr.
Proof.
  revert a b w tr. induction fuel as [|fuel IH]; intros a b w tr H;
    [discriminate|].
  apply loop_S in H. simpl in H.
  destruct H as [(Hp & -> & _) | (slept & b1 & tr1 & Hp & Hrun & ->)].
  - simpl. auto.
  - simpl. split; [|eauto].
    eapply handle_Continue_sleep_rule. eassumption.
Qed.


Lemma time_sleep_exc d x :
  time_sleep d = inr x -> x <> JSONDecodeError.
Proof.
  destruct d as [q| |]; simpl;
    [destruct (Qle_bool (- sleep_max) q && Qle_bool q sleep_max);
     [destruct (Qle_bool 0 q)|]|..];
    intros H; inversion H; discriminate.
Qed.

(** Outside 2xx the parser's exception never escapes a pass. *)
Lemma handle_not_decode_error n b rs :
  ~ is_success (status_code rs) ->
  pass n b rs <> Done (Uncaught JSONDecodeError).
Proof.
  intros Hs H.
  destruct (status_cases (status_code rs))
    as [Hs' | [_ [E | [E | [E | [E1 E2]]]]]]; [contradiction|..].
  - rewrite handle_401 in H by assumption. discriminate.
  - assert (Hr : is_retryable (status_code rs)) by now left.
    destruct (le_lt_dec n 5) as [Hn|Hn].
    + rewrite handle_429_retry in H by assumption.
      destruct (retry_after float_of_str rs b) as [f|]; [|discriminate].
      unfold sleep_then_retry in H.
      destruct (time_sleep f) as [q|x] eqn:Ex; [discriminate|].
      inversion H; subst. now apply time_sleep_exc in Ex.
    + rewrite handle_429_exhausted in H by assumption. discriminate.
  - destruct (le_lt_dec n 5) as [Hn|Hn].
    + rewrite handle_5xx_retry in H by assumption.
      unfold sleep_then_retry in H.
      destruct (time_sleep (Fin b)) as [q|x] eqn:Ex; [discriminate|].
      inversion H; subst. now apply time_sleep_exc in Ex.
    + rewrite handle_5xx_exhausted in H by assumption. discriminate.
  - rewrite handle_other in H by assumption. discriminate.
Qed.

End Sleeps.

(** ** Properties of the executor *)

Section Properties.

Variable float_of_str : string -> option pyfloat.
Variable py_repr : pyval -> string.
Variable W : Type.
Variable session_request : Request -> W -> Response * W.


(** C1 (the code at the failing input): when the first response is a 429
    whose [Retry-After] header [float] cannot read, the call makes one
    attempt, does not sleep and ends with an uncaught [ValueError]; it does
    not reach six attempts and raises no [RateLimitError]. *)
Theorem unreadable_retry_after_ends_call
    fuel timeout method url body w rs w1 h :
  session_request (mkRequest method url body timeout) w = (rs, w1) ->
  status_code rs = 429 ->
  headers rs !! "Retry-After" = Some h ->
  float_of_str h = None ->
  _request float_of_str py_repr session_request (S fuel)
    timeout method url body w =
    Some (Uncaught ValueError,
          [Attempt 1 1 (mkRequest method url body timeout) rs], w1).
Proof.
  intros Hs E Hh Hf.
  rewrite request_first_final with (o := Uncaught ValueError);
    rewrite Hs; simpl; [reflexivity|].
  rewrite handle_429_retry by (auto; lia).
  unfold retry_after. now rewrite Hh, Hf.
Qed.

(** C2: a typed error is the one [category_of_status] assigns to the status
    of the last response, which is not a success status; [RateLimitError] and
    [RetryableError] come only from a sixth attempt, and a sixth response
    with status 429 or 5xx does raise them; a 401 and every status outside
    2xx, 401, 429 and 5xx end the pass they arrive in, with [AuthError] and
    [ApiError], without sleeping or retrying.  Pass by pass: a 401 raises
    [AuthError], a 429 past the fifth attempt [RateLimitError], a 5xx past
    the fifth attempt [RetryableError], any other status outside 2xx
    [ApiError], each built from the status, message and reason of that
    response. *)
Theorem error_category_from_status fuel timeout method url body w :
  (6 <= fuel)%nat ->
  (exists o tr w',
     _request float_of_str py_repr session_request fuel
       timeout method url body w = Some (o, tr, w') /\
     (forall e, o = Raise e ->
        exists rs,
          last (responses tr) = Some rs /\
          ~ is_success (status_code rs) /\
          err_category e = category_of_status (status_code rs) /\
          (is_retryable (status_code rs) ->
           length (responses tr) = 6%nat)) /\
     (forall rs,
        last (responses tr) = Some rs -> length (responses tr) = 6%nat ->
        (status_code rs = 429 ->
         o = Raise (RateLimitError 429 (fst (parse_error rs))
                                   (snd (parse_error rs)))) /\
        (500 <= status_code rs < 600 ->
         o = Raise (RetryableError (status_code rs) (fst (parse_error rs))
                                   (snd (parse_error rs)))))) /\
  (forall n b rs,
     (status_code rs = 401 ->
      handle float_of_str py_repr n b rs =
        Done (Raise (AuthError ("Unauthorized: " +:+
                                py_str py_repr (fst (parse_error rs)))))) /\
     (status_code rs = 429 -> (5 < n)%nat ->
      handle float_of_str py_repr n b rs =
        Done (Raise (RateLimitError 429 (fst (parse_error rs))
                                    (snd (parse_error rs))))) /\
     (500 <= status_code rs < 600 -> (5 < n)%nat ->
      handle float_of_str py_repr n b rs =
        Done (Raise (RetryableError (status_code rs) (fst (parse_error rs))
                                    (snd (parse_error rs))))) /\
     (~ is_success (status_code rs) -> status_code rs <> 401 ->
      ~ is_retryable (status_code rs) ->
      handle float_of_str py_repr n b rs =
        Done (Raise (ApiError (status_code rs) (fst (parse_error rs))
                              (snd (parse_error rs)))))) /\
  (forall n b rs,
     ~ is_success (status_code rs) ->
     is_retryable (status_code rs) \/
     exists e,
       handle float_of_str py_repr n b rs = Done (Raise e) /\
       err_category e =
         (if status_code rs =? 401 then CAuth else CApi)).
Proof.
  intros Hf. split; [|split].
  - destruct (request_run float_of_str py_repr W session_request
                fuel timeout method url body w Hf)
      as (o & tr & w' & n & b & rs & Hrun & Hl & _ & Hp & Hn & Hb & _).
    exists o, tr, w'. split; [assumption|]. split.
    + intros e ->. exists rs.
      apply handle_Raise in Hp as (Hs & -> & Hat).
      split; [assumption|]. split; [assumption|].
      split; [apply error_of_response_category|].
      intros Hr. specialize (Hat Hr). lia.
    + intros rs' Hl' H6. rewrite Hl in Hl'. inversion Hl'; subst rs'.
      assert (H5 : (5 < n)%nat) by lia. split.
      * intros E. rewrite handle_429_exhausted in Hp by assumption.
        now inversion Hp.
      * intros E. rewrite handle_5xx_exhausted in Hp by assumption.
        now inversion Hp.
  - intros n b rs. split; [|split; [|split]].
    + apply handle_401.
    + apply handle_429_exhausted.
    + apply handle_5xx_exhausted.
    + apply handle_other.
  - intros n b rs Hs.
    destruct (status_cases (status_code rs))
      as [Hs' | [_ [E | [E | [E | [E1 E2]]]]]].
    + contradiction.
    + right. eexists. split; [apply handle_401; assumption|].
      rewrite E. reflexivity.
    + left. now left.
    + left. now right.
    + right. eexists. split; [apply handle_other; assumption|].
      destruct (Z.eqb_spec (status_code rs) 401); [contradiction|].
      reflexivity.
Qed.

(** C3: in every call the backoff values of the successive attempts are an
    initial part of 1, 2, 4, 8, 16, 16: each is the double of the one before,
    capped at 16, and not below it; each sleep lasts the backoff of its
    attempt, except after a 429 with a [Retry-After] header, where it lasts
    the number [float] reads from the header, while the backoffs stay those
    of the schedule. *)
Theorem backoff_schedule fuel timeout method url body w :
  (6 <= fuel)%nat ->
  exists o tr w',
    _request float_of_str py_repr session_request fuel
      timeout method url body w = Some (o, tr, w') /\
    (exists k, (1 <= k <= 6)%nat /\
               backoffs tr = take k [1; 2; 4; 8; 16; 16]%Q) /\
    (forall i x y,
       backoffs tr !! i = Some x -> backoffs tr !! S i = Some y ->
       y = Qmin (x * 2) 16 /\ (x <= y)%Q) /\
    sleeps_explained float_of_str tr.
Proof.
  intros Hf.
  destruct (request_run float_of_str py_repr W session_request
              fuel timeout method url body w Hf)
    as (o & tr & w' & n & b & rs & Hrun & _ & _ & _ & _ & Hn & _ & _ & Hb).
  exists o, tr, w'. split; [assumption|].
  assert (Hk : backoffs tr = take n [1; 2; 4; 8; 16; 16]%Q).
  { rewrite Hb. rewrite <- schedule_from_1. apply schedule_from_take. lia. }
  split; [exists n; auto|]. split.
  - intros i x y Hx Hy. rewrite Hk in Hx, Hy.
    apply lookup_take_Some in Hx as [Hx _].
    apply lookup_take_Some in Hy as [Hy _].
    do 5 (destruct i as [|i];
          [inversion Hx; inversion Hy; subst; split;
           [reflexivity | discriminate]|]).
    destruct i; discriminate.
  - unfold _request in Hrun. eapply loop_sleeps. eassumption.
Qed.

(** C4: a 401 ends the pass it arrives in with [AuthError], whatever the
    attempt counter and backoff; when it is the first response the call makes
    one attempt, sleeps never and raises [AuthError]. *)
Theorem unauthorized_is_immediate fuel timeout method url body w rs w1 :
  session_request (mkRequest method url body timeout) w = (rs, w1) ->
  status_code rs = 401 ->
  exists msg,
    (forall n b,
       handle float_of_str py_repr n b rs = Done (Raise (AuthError msg))) /\
    exists tr,
      _request float_of_str py_repr session_request (S fuel)
        timeout method url body w
        = Some (Raise (AuthError msg), tr, w1) /\
      length (requests tr) = 1%nat /\ sleeps tr = [].
Proof.
  intros Hs E. eexists. split.
  - intros n b. apply handle_401. assumption.
  - eexists. split.
    + rewrite request_first_final
        with (o := Raise (AuthError ("Unauthorized: " +:+
                            py_str py_repr (fst (parse_error rs)))));
        rewrite Hs; simpl; [reflexivity|].
      apply handle_401. assumption.
    + split; reflexivity.
Qed.

(** C5 (the code at the failing input): on a 429 within the retry budget
    whose [Retry-After] header is present and is not read by [float] as a
    number, the pass ends with an uncaught [ValueError]: there is no sleep of
    the backoff value and no retry. *)
Theorem unreadable_retry_after_raises n b rs h :
  status_code rs = 429 -> (n <= 5)%nat ->
  headers rs !! "Retry-After" = Some h ->
  float_of_str h = None ->
  handle float_of_str py_repr n b rs = Done (Uncaught ValueError).
Proof.
  intros E Hn Hh Hf. rewrite handle_429_retry by assumption.
  unfold retry_after. now rewrite Hh, Hf.
Qed.

(** C6 (amended): on a response outside 2xx whose body [resp.json()] cannot
    parse, the error parsing yields the raw text as message and [None] as
    reason and the pass never ends in the parser's exception; a typed error
    raised from it carries exactly that message and reason, except that for a
    401 it is the [AuthError] whose only content is the text
    "Unauthorized: " followed by the raw text. *)
Theorem unparseable_error_body n b rs :
  ~ is_success (status_code rs) -> json rs = None ->
  parse_error rs = (VStr (text rs), VNone) /\
  handle float_of_str py_repr n b rs <> Done (Uncaught JSONDecodeError) /\
  forall e, handle float_of_str py_repr n b rs = Done (Raise e) ->
    if status_code rs =? 401
    then e = AuthError ("Unauthorized: " +:+ text rs)
    else err_message e = VStr (text rs) /\ err_reason e = Some VNone.
Proof.
  intros Hs Hj.
  assert (Hp : parse_error rs = (VStr (text rs), VNone)).
  { unfold parse_error. now rewrite Hj. }
  split; [assumption|]. split.
  - apply handle_not_decode_error. assumption.
  - intros e He. apply handle_Raise in He as (_ & -> & _).
    unfold error_of_response. rewrite Hp. simpl.
    unfold category_of_status.
    destruct (status_code rs =? 401); [reflexivity|].
    destruct (status_code rs =? 429); [split; reflexivity|].
    destruct ((500 <=? status_code rs) && (status_code rs <? 600));
      split; reflexivity.
Qed.

(** C7 (amended): a response with a status in [200, 300) ends the pass it
    arrives in, whatever the attempt state, and so does the call whose last
    response it is: with an empty dict when the body is empty; with the
    value the body parses to when it is not empty and parses, returned as it
    is, a mapping when the body is a JSON object and another value
    otherwise; with the parser's exception when it is not empty and does not
    parse. *)
Theorem success_returns_body fuel timeout method url body w :
  (6 <= fuel)%nat ->
  (forall n b rs, is_success (status_code rs) ->
     (content rs <> [] -> forall v, json rs = Some v ->
        handle float_of_str py_repr n b rs = Done (Return v)) /\
     (content rs = [] ->
      handle float_of_str py_repr n b rs = Done (Return (VDict ∅))) /\
     (content rs <> [] -> json rs = None ->
      handle float_of_str py_repr n b rs
        = Done (Uncaught JSONDecodeError))) /\
  exists o tr w',
    _request float_of_str py_repr session_request fuel
      timeout method url body w = Some (o, tr, w') /\
    forall rs, last (responses tr) = Some rs ->
      is_success (status_code rs) ->
      (content rs <> [] -> forall v, json rs = Some v -> o = Return v) /\
      (content rs = [] -> o = Return (VDict ∅)) /\
      (content rs <> [] -> json rs = None -> o = Uncaught JSONDecodeError).
Proof.
  intros Hf.
  assert (Hpass : forall n b rs, is_success (status_code rs) ->
     (content rs <> [] -> forall v, json rs = Some v ->
        handle float_of_str py_repr n b rs = Done (Return v)) /\
     (content rs = [] ->
      handle float_of_str py_repr n b rs = Done (Return (VDict ∅))) /\
     (content rs <> [] -> json rs = None ->
      handle float_of_str py_repr n b rs
        = Done (Uncaught JSONDecodeError))).
  { intros n b rs Hs. rewrite handle_success by assumption.
    split; [|split].
    - intros Hc v Hv. destruct (content rs); [contradiction|].
      now rewrite Hv.
    - intros ->. reflexivity.
    - intros Hc Hj. destruct (content rs); [contradiction|].
      now rewrite Hj. }
  split; [exact Hpass|].
  destruct (request_run float_of_str py_repr W session_request
              fuel timeout method url body w Hf)
    as (o & tr & w' & n & b & rs & Hrun & Hl & _ & Hp & _).
  exists o, tr, w'. split; [assumption|].
  intros rs' Hl' Hs. rewrite Hl in Hl'. inversion Hl'; subst rs'.
  destruct (Hpass n b rs Hs) as (H1 & H2 & H3). split; [|split].
  - intros Hc v Hv. rewrite (H1 Hc v Hv) in Hp. now inversion Hp.
  - intros Hc. rewrite (H2 Hc) in Hp. now inversion Hp.
  - intros Hc Hj. rewrite (H3 Hc Hj) in Hp. now inversion Hp.
Qed.

(** C8: every attempt of a call sends the same request, the one built from
    the method, URL, JSON body and timeout of the call; across the attempts
    the counter runs 1, 2, ... and the backoff follows the schedule. *)
Theorem request_is_resent_unchanged fuel timeout method url body w :
  (6 <= fuel)%nat ->
  exists o tr w' n,
    _request float_of_str py_repr session_request fuel
      timeout method url body w = Some (o, tr, w') /\
    (1 <= n <= 6)%nat /\
    requests tr = replicate n (mkRequest method url body timeout) /\
    counters tr = seq 1 n /\
    backoffs tr = schedule_from 1 n.
Proof.
  intros Hf.
  destruct (request_run float_of_str py_repr W session_request
              fuel timeout method url body w Hf)
    as (o & tr & w' & n & b & rs & Hrun & _ & _ & _ & Hn & Hb & Hrq & Hc & Hs).
  exists o, tr, w', n. repeat split; auto; try lia.
  destruct (log_lengths tr) as (Lr & _). rewrite <- Hn in Lr.
  rewrite <- Lr. clear - Hrq.
  induction Hrq as [|x l <- _ IH]; [reflexivity|].
  simpl. f_equal. exact IH.
Qed.

(** C9 (amended): [ApiError], [RateLimitError] and [RetryableError] carry the
    status code of the last response and the message and reason parsed from
    it; [AuthError] carries only the text "Unauthorized: " followed by the
    parsed message, and has neither a status nor a reason. *)
Theorem typed_error_payload fuel timeout method url body w :
  (6 <= fuel)%nat ->
  exists o tr w',
    _request float_of_str py_repr session_request fuel
      timeout method url body w = Some (o, tr, w') /\
    forall e, o = Raise e ->
      exists rs,
        last (responses tr) = Some rs /\
        if status_code rs =? 401
        then e = AuthError ("Unauthorized: " +:+
                            py_str py_repr (fst (parse_error rs))) /\
             err_status e = None /\ err_reason e = None
        else err_status e = Some (status_code rs) /\
             err_message e = fst (parse_error rs) /\
             err_reason e = Some (snd (parse_error rs)).
Proof.
  intros Hf.
  destruct (request_run float_of_str py_repr W session_request
              fuel timeout method url body w Hf)
    as (o & tr & w' & n & b & rs & Hrun & Hl & _ & Hp & _).
  exists o, tr, w'. split; [assumption|].
  intros e ->. exists rs. split; [assumption|].
  apply handle_Raise in Hp as (_ & -> & _).
  unfold error_of_response, category_of_status.
  destruct (status_code rs =? 401); [repeat split|].
  destruct (status_code rs =? 429); [repeat split|].
  destruct ((500 <=? status_code rs) && (status_code rs <? 600));
    repeat split.
Qed.

(** C10: a response with a status in [200, 300) whose body is not empty and
    cannot be parsed ends the pass it arrives in, whatever the attempt state,
    with the parser's exception, which is neither a returned value nor one of
    the typed errors; as the first response it ends the call so after one
    attempt. *)
Theorem unparseable_success_body_raises fuel timeout method url body w rs w1 :
  session_request (mkRequest method url body timeout) w = (rs, w1) ->
  is_success (status_code rs) -> content rs <> [] -> json rs = None ->
  (forall n b,
     handle float_of_str py_repr n b rs = Done (Uncaught JSONDecodeError)) /\
  _request float_of_str py_repr session_request (S fuel)
    timeout method url body w =
    Some (Uncaught JSONDecodeError,
          [Attempt 1 1 (mkRequest method url body timeout) rs], w1) /\
  (forall e, Uncaught JSONDecodeError <> Raise e) /\
  (forall v, Uncaught JSONDecodeError <> Return v).
Proof.
  intros Hs Hok Hc Hj.
  assert (Hpass : forall n b,
            handle float_of_str py_repr n b rs
            = Done (Uncaught JSONDecodeError)).
  { intros n b. rewrite handle_success by assumption.
    destruct (content rs); [contradiction|]. now rewrite Hj. }
  split; [exact Hpass|]. split.
  - rewrite request_first_final with (o := Uncaught JSONDecodeError);
      rewrite Hs; simpl; [reflexivity | apply Hpass].
  - split; intros; discriminate.
Qed.

End Properties.

(** ** Concrete runs *)

Lemma unreadable_retry_after_ends_call_witness :
  replay list_sites (replicate 6 rate_limited_until_date)
    = (rate_limited_until_date, replicate 5 rate_limited_until_date) /\
  status_code rate_limited_until_date = 429 /\
  headers rate_limited_until_date !! "Retry-After"
    = Some "Wed, 21 Oct 2015 07:28:00 GMT" /\
  float_of_digits "Wed, 21 Oct 2015 07:28:00 GMT" = None /\
  sites_list (replicate 6 rate_limited_until_date) =
    Some (Uncaught ValueError,
          [Attempt 1 1 list_sites rate_limited_until_date],
          replicate 5 rate_limited_until_date).
Proof.
  assert (H1 : replay list_sites (replicate 6 rate_limited_until_date)
               = (rate_limited_until_date,
                  replicate 5 rate_limited_until_date)) by reflexivity.
  assert (H2 : status_code rate_limited_until_date = 429) by reflexivity.
  assert (H3 : headers rate_limited_until_date !! "Retry-After"
               = Some "Wed, 21 Oct 2015 07:28:00 GMT")
    by (vm_compute; reflexivity).
  assert (H4 : float_of_digits "Wed, 21 Oct 2015 07:28:00 GMT" = None)
    by reflexivity.
  refine (conj H1 (conj H2 (conj H3 (conj H4 _)))).
  exact (unreadable_retry_after_ends_call float_of_digits repr_opaque _ replay
           5 30 "GET" sites_url None _ _ _ _ H1 H2 H3 H4).
Defined.

Lemma error_category_from_status_witness :
  (6 <= 6)%nat /\
  ((exists o tr w',
      sites_list (replicate 6 unavailable) = Some (o, tr, w') /\
      (forall e, o = Raise e ->
         exists rs,
           last (responses tr) = Some rs /\
           ~ is_success (status_code rs) /\
           err_category e = category_of_status (status_code rs) /\
           (is_retryable (status_code rs) ->
            length (responses tr) = 6%nat)) /\
      (forall rs,
         last (responses tr) = Some rs -> length (responses tr) = 6%nat ->
         (status_code rs = 429 ->
          o = Raise (RateLimitError 429 (fst (parse_error rs))
                                    (snd (parse_error rs)))) /\
         (500 <= status_code rs < 600 ->
          o = Raise (RetryableError (status_code rs) (fst (parse_error rs))
                                    (snd (parse_error rs)))))) /\
   (forall n b rs,
      (status_code rs = 401 ->
       handle float_of_digits repr_opaque n b rs =
         Done (Raise (AuthError ("Unauthorized: " +:+
                                 py_str repr_opaque
                                   (fst (parse_error rs)))))) /\
      (status_code rs = 429 -> (5 < n)%nat ->
       handle float_of_digits repr_opaque n b rs =
         Done (Raise (RateLimitError 429 (fst (parse_error rs))
                                     (snd (parse_error rs))))) /\
      (500 <= status_code rs < 600 -> (5 < n)%nat ->
       handle float_of_digits repr_opaque n b rs =
         Done (Raise (RetryableError (status_code rs)
                                     (fst (parse_error rs))
                                     (snd (parse_error rs))))) /\
      (~ is_success (status_code rs) -> status_code rs <> 401 ->
       ~ is_retryable (status_code rs) ->
       handle float_of_digits repr_opaque n b rs =
         Done (Raise (ApiError (status_code rs) (fst (parse_error rs))
                               (snd (parse_error rs)))))) /\
   (forall n b rs,
      ~ is_success (status_code rs) ->
      is_retryable (status_code rs) \/
      exists e,
        handle float_of_digits repr_opaque n b rs = Done (Raise e) /\
        err_category e =
          (if status_code rs =? 401 then CAuth else CApi))).
Proof.
  split; [lia|].
  apply (error_category_from_status float_of_digits repr_opaque _ replay
           6 30 "GET" sites_url None (replicate 6 unavailable)).
  lia.
Defined.

Lemma backoff_schedule_witness :
  (6 <= 6)%nat /\
  exists o tr w',
    sites_list (rate_limited_for "0" :: replicate 5 unavailable)
      = Some (o, tr, w') /\
    (exists k, (1 <= k <= 6)%nat /\
               backoffs tr = take k [1; 2; 4; 8; 16; 16]%Q) /\
    (forall i x y,
       backoffs tr !! i = Some x -> backoffs tr !! S i = Some y ->
       y = Qmin (x * 2) 16 /\ (x <= y)%Q) /\
    sleeps_explained float_of_digits tr.
Proof.
  split; [lia|].
  apply (backoff_schedule float_of_digits repr_opaque _ replay
           6 30 "GET" sites_url None
           (rate_limited_for "0" :: replicate 5 unavailable)).
  lia.
Defined.

Lemma unauthorized_is_immediate_witness :
  replay list_sites [token_expired] = (token_expired, []) /\
  status_code token_expired = 401 /\
  exists msg,
    (forall n b, handle float_of_digits repr_opaque n b token_expired
                 = Done (Raise (AuthError msg))) /\
    exists tr,
      sites_list [token_expired] = Some (Raise (AuthError msg), tr, []) /\
      length (requests tr) = 1%nat /\ sleeps tr = [].
Proof.
  assert (H1 : replay list_sites [token_expired] = (token_expired, []))
    by reflexivity.
  assert (H2 : status_code token_expired = 401) by reflexivity.
  refine (conj H1 (conj H2 _)).
  exact (unauthorized_is_immediate float_of_digits repr_opaque _ replay
           5 30 "GET" sites_url None _ _ _ H1 H2).
Defined.

Lemma unreadable_retry_after_raises_witness :
  status_code rate_limited_until_date = 429 /\ (1 <= 5)%nat /\
  headers rate_limited_until_date !! "Retry-After"
    = Some "Wed, 21 Oct 2015 07:28:00 GMT" /\
  float_of_digits "Wed, 21 Oct 2015 07:28:00 GMT" = None /\
  handle float_of_digits repr_opaque 1 1 rate_limited_until_date
    = Done (Uncaught ValueError).
Proof.
  assert (H1 : status_code rate_limited_until_date = 429) by reflexivity.
  assert (H2 : (1 <= 5)%nat) by lia.
  assert (H3 : headers rate_limited_until_date !! "Retry-After"
               = Some "Wed, 21 Oct 2015 07:28:00 GMT")
    by (vm_compute; reflexivity).
  assert (H4 : float_of_digits "Wed, 21 Oct 2015 07:28:00 GMT" = None)
    by reflexivity.
  refine (conj H1 (conj H2 (conj H3 (conj H4 _)))).
  exact (unreadable_retry_after_raises float_of_digits repr_opaque
           1 1 _ _ H1 H2 H3 H4).
Defined.

Lemma unparseable_error_body_witness :
  ~ is_success (status_code not_found) /\ json not_found = None /\
  (parse_error not_found = (VStr (text not_found), VNone) /\
   handle float_of_digits repr_opaque 1 1 not_found
     <> Done (Uncaught JSONDecodeError) /\
   forall e,
     handle float_of_digits repr_opaque 1 1 not_found = Done (Raise e) ->
     if status_code not_found =? 401
     then e = AuthError ("Unauthorized: " +:+ text not_found)
     else err_message e = VStr (text not_found) /\
          err_reason e = Some VNone).
Proof.
  assert (H1 : ~ is_success (status_code not_found))
    by (unfold is_success; simpl; lia).
  assert (H2 : json not_found = None) by reflexivity.
  refine (conj H1 (conj H2 _)).
  exact (unparseable_error_body float_of_digits repr_opaque 1 1 _ H1 H2).
Defined.

(** C6 (counterexample): the body of this 401 is not JSON, and the message
    of the error raised is not the raw text of the response. *)
Lemma auth_error_message_is_not_raw_text :
  ~ is_success (status_code token_expired) /\ json token_expired = None /\
  sites_list [token_expired] =
    Some (Raise (AuthError "Unauthorized: token expired"),
          [Attempt 1 1 list_sites token_expired], []) /\
  err_message (AuthError "Unauthorized: token expired")
    <> VStr (text token_expired) /\
  err_reason (AuthError "Unauthorized: token expired") <> Some VNone.
Proof.
  split; [unfold is_success; simpl; lia|].
  split; [reflexivity|]. split; [reflexivity|].
  split; discriminate.
Qed.

Lemma success_returns_body_witness :
  (6 <= 6)%nat /\
  ((forall n b rs, is_success (status_code rs) ->
      (content rs <> [] -> forall v, json rs = Some v ->
         handle float_of_digits repr_opaque n b rs = Done (Return v)) /\
      (content rs = [] ->
       handle float_of_digits repr_opaque n b rs
         = Done (Return (VDict ∅))) /\
      (content rs <> [] -> json rs = None ->
       handle float_of_digits repr_opaque n b rs
         = Done (Uncaught JSONDecodeError))) /\
   exists o tr w',
     sites_list [rate_limited_for "0"; empty_object] = Some (o, tr, w') /\
     forall rs, last (responses tr) = Some rs ->
       is_success (status_code rs) ->
       (content rs <> [] -> forall v, json rs = Some v -> o = Return v) /\
       (content rs = [] -> o = Return (VDict ∅)) /\
       (content rs <> [] -> json rs = None ->
        o = Uncaught JSONDecodeError)).
Proof.
  split; [lia|].
  apply (success_returns_body float_of_digits repr_opaque _ replay
           6 30 "GET" sites_url None [rate_limited_for "0"; empty_object]).
  lia.
Defined.

(** C7 (counterexample): two responses with status 200 and a body that is
    not empty.  For the first, whose body is not JSON, the call returns
    nothing: the parser's exception escapes.  For the second, whose body is
    the JSON text [null], the call returns [None], which is not a mapping. *)
Lemma success_body_need_not_give_a_mapping :
  is_success (status_code html_page) /\ content html_page <> [] /\
  sites_list [html_page] =
    Some (Uncaught JSONDecodeError,
          [Attempt 1 1 list_sites html_page], []) /\
  is_success (status_code null_body) /\ content null_body <> [] /\
  sites_list [null_body] =
    Some (Return VNone, [Attempt 1 1 list_sites null_body], []) /\
  (forall d, VNone <> VDict d).
Proof.
  split; [unfold is_success; simpl; lia|]. split; [discriminate|].
  split; [reflexivity|].
  split; [unfold is_success; simpl; lia|]. split; [discriminate|].
  split; [reflexivity | discriminate].
Qed.

Lemma request_is_resent_unchanged_witness :
  (6 <= 6)%nat /\
  exists o tr w' n,
    sites_list (replicate 6 unavailable) = Some (o, tr, w') /\
    (1 <= n <= 6)%nat /\
    requests tr = replicate n list_sites /\
    counters tr = seq 1 n /\
    backoffs tr = schedule_from 1 n.
Proof.
  split; [lia|].
  apply (request_is_resent_unchanged float_of_digits repr_opaque _ replay
           6 30 "GET" sites_url None (replicate 6 unavailable)).
  lia.
Defined.

Lemma typed_error_payload_witness :
  (6 <= 6)%nat /\
  exists o tr w',
    sites_list (replicate 6 (rate_limited_for "0")) = Some (o, tr, w') /\
    forall e, o = Raise e ->
      exists rs,
        last (responses tr) = Some rs /\
        if status_code rs =? 401
        then e = AuthError ("Unauthorized: " +:+
                            py_str repr_opaque (fst (parse_error rs))) /\
             err_status e = None /\ err_reason e = None
        else err_status e = Some (status_code rs) /\
             err_message e = fst (parse_error rs) /\
             err_reason e = Some (snd (parse_error rs)).
Proof.
  split; [lia|].
  apply (typed_error_payload float_of_digits repr_opaque _ replay
           6 30 "GET" sites_url None (replicate 6 (rate_limited_for "0"))).
  lia.
Defined.

(** C9 (counterexample): the error raised for this 401 is an [AuthError]; it
    has no status code and no reason, and its message is not the parsed
    one. *)
Lemma auth_error_has_no_status :
  exists e,
    sites_list [token_expired]
      = Some (Raise e, [Attempt 1 1 list_sites token_expired], []) /\
    err_category e = CAuth /\
    err_status e = None /\ err_reason e = None /\
    err_message e <> fst (parse_error token_expired).
Proof.
  exists (AuthError "Unauthorized: token expired").
  split; [reflexivity|]. split; [reflexivity|].
  split; [reflexivity|]. split; [reflexivity|]. discriminate.
Qed.

Lemma unparseable_success_body_raises_witness :
  replay list_sites [html_page] = (html_page, []) /\
  is_success (status_code html_page) /\ content html_page <> [] /\
  json html_page = None /\
  ((forall n b, handle float_of_digits repr_opaque n b html_page
                = Done (Uncaught JSONDecodeError)) /\
   sites_list [html_page] =
     Some (Uncaught JSONDecodeError, [Attempt 1 1 list_sites html_page], []) /\
   (forall e, Uncaught JSONDecodeError <> Raise e) /\
   (forall v, Uncaught JSONDecodeError <> Return v)).
Proof.
  assert (H1 : replay list_sites [html_page] = (html_page, []))
    by reflexivity.
  assert (H2 : is_success (status_code html_page))
    by (unfold is_success; simpl; lia).
  assert (H3 : content html_page <> []) by discriminate.
  assert (H4 : json html_page = None) by reflexivity.
  refine (conj H1 (conj H2 (conj H3 (conj H4 _)))).
  exact (unparseable_success_body_raises float_of_digits repr_opaque _ replay
           5 30 "GET" sites_url None _ _ _ H1 H2 H3 H4).
Defined.

(** The scenarios of the test suite and of the spec. *)

Example recovery_after_429 :
  sites_list [rate_limited_for "0"; empty_object] =
    Some (Return (VDict ∅),
          [Attempt 1 1 list_sites (rate_limited_for "0"); Sleep 0;
           Attempt 2 2 list_sites empty_object], []).
Proof. vm_compute. reflexivity. Qed.

Example delete_returns_empty_mapping :
  _request float_of_digits repr_opaque replay 6 30 "DELETE" sites_url None
    [no_content] =
    Some (Return (VDict ∅),
          [Attempt 1 1 (mkRequest "DELETE" sites_url None 30) no_content], []).
Proof. reflexivity. Qed.

Example six_attempts_on_503 :
  option_map (fun r => (fst (fst r), counters (snd (fst r)),
                        sleeps (snd (fst r))))
    (sites_list (replicate 8 unavailable)) =
    Some (Raise (RetryableError 503 (VStr "unavailable") VNone),
          [1; 2; 3; 4; 5; 6]%nat, [1; 2; 4; 8; 16]%Q).
Proof. vm_compute. reflexivity. Qed.

Example six_attempts_on_429 :
  option_map (fun r => (fst (fst r), counters (snd (fst r)),
                        sleeps (snd (fst r))))
    (sites_list (replicate 8 (rate_limited_for "3"))) =
    Some (Raise (RateLimitError 429 (VStr "slow down") VNone),
          [1; 2; 3; 4; 5; 6]%nat, [3; 3; 3; 3; 3]%Q).
Proof. vm_compute. reflexivity. Qed.

(** ** Further properties of the executor *)

Section ExecutorExtras.

Variable float_of_str : string -> option pyfloat.
Variable py_repr : pyval -> string.
Variable W : Type.
Variable session_request : Request -> W -> Response * W.

(** Every pass before the last one met a retryable status, and slept once:
    the log holds one sleep less than attempts. *)
Lemma loop_shape fuel rq a b w o tr w' :
  loop float_of_str py_repr session_request fuel rq a b w = Some (o, tr, w') ->
  Forall (fun rs => is_retryable (status_code rs))
         (removelast (responses tr)) /\
  S (length (sleeps tr)) = length (responses tr).
Proof.
  revert a b w tr. induction fuel as [|fuel IH]; intros a b w tr H;
    [discriminate|].
  apply loop_S in H. simpl in H.
  destruct H as [(Hp & -> & _) | (slept & b1 & tr1 & Hp & Hrun & ->)].
  - simpl. split; [constructor | reflexivity].
  - destruct (IH _ _ _ _ Hrun) as [IH1 IH2].
    apply handle_Continue in Hp as (_ & Hr & _).
    simpl. split; [|now rewrite IH2].
    destruct (responses tr1) as [|r l] eqn:E; [simpl in IH2; lia|].
    constructor; assumption.
Qed.

(** Without [Retry-After] headers every sleep lasts the backoff of its
    attempt. *)
Lemma loop_plain_sleeps fuel rq a b w o tr w' :
  loop float_of_str py_repr session_request fuel rq a b w = Some (o, tr, w') ->
  no_retry_after tr ->
  sleeps tr = removelast (backoffs tr).
Proof.
  revert a b w tr. induction fuel as [|fuel IH]; intros a b w tr H Hno;
    [discriminate|].
  apply loop_S in H. simpl in H.
  destruct H as [(Hp & -> & _) | (slept & b1 & tr1 & Hp & Hrun & ->)].
  - reflexivity.
  - unfold no_retry_after in Hno. simpl in Hno.
    apply Forall_cons in Hno as [Hh Hno].
    pose proof (IH _ _ _ _ Hrun Hno) as IHs.
    apply handle_Continue_sleep_rule in Hp. unfold sleep_rule in Hp.
    rewrite Hh in Hp.
    assert (slept = b) as -> by (destruct (status_code _ =? 429); exact Hp).
    simpl. rewrite IHs.
    destruct (loop_shape _ _ _ _ _ _ _ _ Hrun) as [_ Hl].
    destruct (log_lengths tr1) as (_ & Lb & _).
    destruct (backoffs tr1); [simpl in Lb; lia | reflexivity].
Qed.

(** X1: every response of a call but the last has a retried status (429 or
    5xx): after any other response the executor sends nothing more.  The
    call sleeps exactly once between two attempts, so at most five times. *)
Theorem only_retryable_statuses_are_retried fuel timeout method url body w :
  (6 <= fuel)%nat ->
  exists o tr w',
    _request float_of_str py_repr session_request fuel
      timeout method url body w = Some (o, tr, w') /\
    Forall (fun rs => is_retryable (status_code rs))
           (removelast (responses tr)) /\
    S (length (sleeps tr)) = length (responses tr) /\
    (length (sleeps tr) <= 5)%nat.
Proof.
  intros Hf.
  destruct (request_run float_of_str py_repr W session_request
              fuel timeout method url body w Hf)
    as (o & tr & w' & n & b & rs & Hrun & _ & _ & _ & Hn & Hb & _).
  exists o, tr, w'. split; [assumption|].
  destruct (loop_shape _ _ _ _ _ _ _ _ Hrun) as [H1 H2].
  repeat split; auto. lia.
Qed.

(** X2: when no response carries a [Retry-After] header, the sleeps of a call
    are an initial part of 1, 2, 4, 8, 16, so the call spends at most 31 time
    units sleeping. *)
Theorem plain_sleeps_are_bounded fuel timeout method url body w :
  (6 <= fuel)%nat ->
  exists o tr w',
    _request float_of_str py_repr session_request fuel
      timeout method url body w = Some (o, tr, w') /\
    (no_retry_after tr ->
     sleeps tr = take (length (sleeps tr)) [1; 2; 4; 8; 16]%Q /\
     (total_sleep tr <= 31)%Q).
Proof.
  intros Hf.
  destruct (request_run float_of_str py_repr W session_request
              fuel timeout method url body w Hf)
    as (o & tr & w' & n & b & rs & Hrun & _ & _ & _ & Hn & Hb & _ & _ & Hs).
  exists o, tr, w'. split; [assumption|]. intros Hno.
  pose proof (loop_plain_sleeps _ _ _ _ _ _ _ _ Hrun Hno) as Hsl.
  assert (Hk : sleeps tr = take (length (sleeps tr)) [1; 2; 4; 8; 16]%Q).
  { destruct (loop_shape _ _ _ _ _ _ _ _ Hrun) as [_ Hl].
    rewrite <- Hn in Hl.
    assert (Hlen : length (sleeps tr) = pred n) by lia.
    rewrite Hlen. rewrite Hsl, Hs. clear - Hb.
    do 7 (destruct n as [|n]; [try lia; reflexivity|]).
    lia. }
  split; [exact Hk|].
  unfold total_sleep. rewrite Hk.
  destruct (length (sleeps tr)) as [|[|[|[|[|[|k]]]]]]; vm_compute;
    discriminate.
Qed.





End ExecutorExtras.

(** ** The error body *)

(** X5: the message parsed from an error response is a truthy value found in
    the body or else the raw text of the response: it is never [None], an
    empty string or another falsy value taken from the body. *)
Theorem error_message_is_truthy_or_text (rs : Response) :
  truthy (fst (parse_error rs)) = true \/
  fst (parse_error rs) = VStr (text rs).
Proof.
  unfold parse_error. destruct (json rs) as [err|]; [|now right].
  destruct (extract_message err (text rs)) as [m|] eqn:E; [|now right].
  simpl. unfold extract_message in E.
  destruct err as [| | | | | |d]; try discriminate. simpl in E.
  destruct (default (VDict ∅) (d !! "error")) as [| | | | | |e];
    try discriminate.
  simpl in E. destruct (truthy (default VNone (e !! "message"))) eqn:T1.
  - inversion E; subst. now left.
  - inversion E; subst. unfold py_or.
    destruct (truthy (default VNone (d !! "message"))) eqn:T2;
      [now left | now right].
Qed.

(** X6: a reason other than [None] is only ever taken from one place: the
    body is a JSON object whose ["error"] is an object whose ["errors"] is a
    list whose first entry is an object, and the reason is that entry's
    ["reason"]. *)
Theorem reason_comes_from_first_sub_error (rs : Response) :
  snd (parse_error rs) <> VNone ->
  exists d e r0 rest,
    json rs = Some (VDict d) /\
    d !! "error" = Some (VDict e) /\
    e !! "errors" = Some (VList (VDict r0 :: rest)) /\
    r0 !! "reason" = Some (snd (parse_error rs)).
Proof.
  unfold parse_error. destruct (json rs) as [err|]; [|now intros []].
  destruct (extract_message err (text rs)) as [m|]; [|now intros []].
  simpl. unfold extract_reason.
  destruct err as [| | | | | |d]; try now intros [].
  destruct (d !! "error") as [[| | | | | |e]|] eqn:Ee; try now intros [].
  unfold py_or.
  destruct (e !! "errors") as [v|] eqn:Ev; simpl; [|now intros []].
  destruct (truthy v) eqn:Tv; [|now intros []].
  destruct v as [| | | | |l|]; try now intros [].
  destruct l as [|[| | | | | |r0] rest]; try now intros [].
  destruct (r0 !! "reason") as [r|] eqn:Er; simpl; [|now intros []].
  intros _. exists d, e, r0, rest. auto.
Qed.

(** X7: a body that is valid JSON but not of the expected shape, because it
    is not an object or because its ["error"] entry is present and is not an
    object, is treated like an unparseable one: the message is the raw text
    and the reason is [None], even when the body has a top-level
    ["message"]. *)
Theorem misshapen_error_body_falls_back_to_text (rs : Response) (v : pyval) :
  json rs = Some v ->
  (forall d, v = VDict d ->
     exists x, d !! "error" = Some x /\ forall e, x <> VDict e) ->
  parse_error rs = (VStr (text rs), VNone).
Proof.
  intros Hj Hv. unfold parse_error. rewrite Hj.
  destruct v as [| | | | | |d]; try reflexivity.
  destruct (Hv d eq_refl) as (x & Hx & Hnd).
  unfold extract_message. simpl. rewrite Hx. simpl.
  destruct x as [| | | | | |e]; try reflexivity.
  exfalso. now apply (Hnd e).
Qed.

(** X8: precedence of the message sources.  A truthy [error.message] is the
    message whatever else the body holds; without an ["error"] entry a truthy
    top-level ["message"] is. *)
Theorem error_message_precedence (rs : Response) (d : gmap string pyval)
    (m : pyval) :
  json rs = Some (VDict d) -> truthy m = true ->
  (forall e, d !! "error" = Some (VDict e) -> e !! "message" = Some m ->
     fst (parse_error rs) = m) /\
  (d !! "error" = None -> d !! "message" = Some m ->
     fst (parse_error rs) = m).
Proof.
  intros Hj Hm. unfold parse_error, extract_message. rewrite Hj. simpl.
  split.
  - intros e He Hem. rewrite He. simpl. rewrite Hem. simpl.
    now rewrite Hm.
  - intros He Hdm. rewrite He. simpl. rewrite lookup_empty. simpl.
    rewrite Hdm. simpl. unfold py_or. now rewrite Hm.
Qed.

(** ** The query payload (api/_requests.py) *)

Section ToDict.

Import Requests.

(** What [to_dict] holds under each key. *)
Lemma to_dict_lookup (r : SearchAnalyticsQueryRequest) :
  to_dict r !! "startDate" = Some (VStr (startDate r)) /\
  to_dict r !! "endDate" = Some (VStr (endDate r)) /\
  to_dict r !! "dimensions" =
    (if bool_decide (dimensions r <> []) then
       Some (VList (VStr <$> dimensions r)) else None) /\
  to_dict r !! "rowLimit" = VInt <$> rowLimit r /\
  to_dict r !! "startRow" = VInt <$> startRow r /\
  to_dict r !! "dimensionFilterGroups" =
    match dimensionFilterGroups r with
    | Some (g :: gs) => Some (VList (group_to_dict <$> g :: gs))
    | _ => None
    end /\
  to_dict r !! "aggregationType" = VStr <$> aggregationType r /\
  to_dict r !! "dataState" = VStr <$> dataState r /\
  forall k, k ∉ payload_keys -> to_dict r !! k = None.
Proof.
  destruct r as [sd ed dims rl sr sdi grp agg ds].
  unfold to_dict, set_if, set_some, payload_keys. simpl.
  destruct (bool_decide (dims <> [])), rl, sr, grp as [[|g gs]|], agg, ds;
    simpl; repeat split;
    try (intros k Hk;
         repeat (apply not_elem_of_cons in Hk as [? Hk]));
    repeat (rewrite lookup_insert_ne by (discriminate || congruence));
    first [ apply lookup_insert_eq
          | apply lookup_singleton_eq
          | apply lookup_singleton_ne; discriminate || congruence ].
Qed.

Lemma filter_to_dict_inj : Inj (=) (=) filter_to_dict.
Proof.
  intros [d1 o1 e1] [d2 o2 e2] H. unfold filter_to_dict in H. simpl in H.
  assert (Hm : forall k,
            ({[ "dimension" := VStr d1; "operator" := VStr o1;
                "expression" := VStr e1 ]} : gmap string pyval) !! k =
            ({[ "dimension" := VStr d2; "operator" := VStr o2;
                "expression" := VStr e2 ]} : gmap string pyval) !! k)
    by (intros k; congruence).
  pose proof (Hm "dimension") as Ka. pose proof (Hm "operator") as Kb.
  pose proof (Hm "expression") as Kc. clear H Hm.
  rewrite !lookup_insert_eq in Ka.
  rewrite !(lookup_insert_ne _ "dimension" "operator") in Kb
    by discriminate.
  rewrite !lookup_insert_eq in Kb.
  rewrite !(lookup_insert_ne _ "dimension" "expression") in Kc
    by discriminate.
  rewrite !(lookup_insert_ne _ "operator" "expression") in Kc
    by discriminate.
  rewrite !lookup_singleton_eq in Kc. congruence.
Qed.

Lemma group_to_dict_inj : Inj (=) (=) group_to_dict.
Proof.
  intros [f1 t1] [f2 t2] H. unfold group_to_dict in H. simpl in H.
  assert (Hm : forall k,
            ({[ "groupType" := VStr t1;
                "filters" := VList (filter_to_dict <$> f1) ]}
               : gmap string pyval) !! k =
            ({[ "groupType" := VStr t2;
                "filters" := VList (filter_to_dict <$> f2) ]}
               : gmap string pyval) !! k)
    by (intros k; congruence).
  pose proof (Hm "groupType") as Ka. pose proof (Hm "filters") as Kb.
  clear H Hm.
  rewrite !lookup_insert_eq in Ka.
  rewrite !(lookup_insert_ne _ "groupType" "filters") in Kb by discriminate.
  rewrite !lookup_singleton_eq in Kb.
  inversion Ka. inversion Kb as [Hf].
  pose proof filter_to_dict_inj.
  apply (inj (fmap filter_to_dict)) in Hf. congruence.
Qed.

#[local] Instance VStr_inj : Inj (=) (=) VStr.
Proof. intros a b H. now inversion H. Qed.

(** X9: the keys of the payload.  [startDate] and [endDate] are always
    sent; [dimensions] only when the list is not empty; [rowLimit],
    [startRow], [aggregationType] and [dataState] whenever they are not
    [None], so a [rowLimit] of 0 is sent; [dimensionFilterGroups] only for a
    non-empty list; nothing else, and [startDateInclusive] never. *)
Theorem payload_key_is_sent (r : SearchAnalyticsQueryRequest) (k : string) :
  is_Some (to_dict r !! k) <->
  k = "startDate" \/ k = "endDate" \/
  (k = "dimensions" /\ dimensions r <> []) \/
  (k = "rowLimit" /\ is_Some (rowLimit r)) \/
  (k = "startRow" /\ is_Some (startRow r)) \/
  (k = "dimensionFilterGroups" /\
   exists g gs, dimensionFilterGroups r = Some (g :: gs)) \/
  (k = "aggregationType" /\ is_Some (aggregationType r)) \/
  (k = "dataState" /\ is_Some (dataState r)).
Proof.
  destruct (to_dict_lookup r)
    as (H1 & H2 & H3 & H4 & H5 & H6 & H7 & H8 & Hother).
  split.
  - intros Hk. destruct (decide (k ∈ payload_keys)) as [Hin|Hout].
    + unfold payload_keys in Hin. rewrite !elem_of_cons in Hin.
      rewrite elem_of_nil in Hin.
      destruct Hin as [->|[->|[->|[->|[->|[->|[->|[->|[]]]]]]]]].
      * auto.
      * auto.
      * rewrite H3 in Hk. case_bool_decide; [auto 10 | now inversion Hk].
      * rewrite H4 in Hk. apply fmap_is_Some in Hk. auto 10.
      * rewrite H5 in Hk. apply fmap_is_Some in Hk. auto 10.
      * rewrite H6 in Hk.
        destruct (dimensionFilterGroups r) as [[|g gs]|];
          try now inversion Hk.
        do 5 right. left. eauto.
      * rewrite H7 in Hk. apply fmap_is_Some in Hk. auto 10.
      * rewrite H8 in Hk. apply fmap_is_Some in Hk. auto 10.
    + rewrite (Hother k Hout) in Hk. now inversion Hk.
  - intros [->|[->|[[-> Hd]|[[-> Hd]|[[-> Hd]|[[-> Hd]|[[-> Hd]|[-> Hd]]]]]]]].
    + rewrite H1. eauto.
    + rewrite H2. eauto.
    + rewrite H3. rewrite bool_decide_eq_true_2 by assumption. eauto.
    + rewrite H4. now apply fmap_is_Some.
    + rewrite H5. now apply fmap_is_Some.
    + rewrite H6. destruct Hd as (g & gs & ->). eauto.
    + rewrite H7. now apply fmap_is_Some.
    + rewrite H8. now apply fmap_is_Some.
Qed.

(** X10: two requests give the same payload exactly when they agree on
    every field but [startDateInclusive], an absent list of filter groups
    counting as an empty one: [to_dict] loses nothing else. *)
Theorem to_dict_keeps_sent_fields (r1 r2 : SearchAnalyticsQueryRequest) :
  to_dict r1 = to_dict r2 <-> sent_fields r1 = sent_fields r2.
Proof.
  split.
  - intros H.
    destruct (to_dict_lookup r1)
      as (A1 & A2 & A3 & A4 & A5 & A6 & A7 & A8 & _).
    destruct (to_dict_lookup r2)
      as (B1 & B2 & B3 & B4 & B5 & B6 & B7 & B8 & _).
    rewrite H in A1, A2, A3, A4, A5, A6, A7, A8.
    rewrite A1 in B1. rewrite A2 in B2. rewrite A3 in B3. rewrite A4 in B4.
    rewrite A5 in B5. rewrite A6 in B6. rewrite A7 in B7. rewrite A8 in B8.
    clear A1 A2 A3 A4 A5 A6 A7 A8 H.
    destruct r1 as [sd1 ed1 dims1 rl1 sr1 sdi1 grp1 agg1 ds1].
    destruct r2 as [sd2 ed2 dims2 rl2 sr2 sdi2 grp2 agg2 ds2].
    unfold sent_fields. simpl in *.
    assert (sd1 = sd2) as -> by congruence.
    assert (ed1 = ed2) as -> by congruence.
    assert (rl1 = rl2) as ->
      by (destruct rl1, rl2; simpl in B4; congruence).
    assert (sr1 = sr2) as ->
      by (destruct sr1, sr2; simpl in B5; congruence).
    assert (agg1 = agg2) as ->
      by (destruct agg1, agg2; simpl in B7; congruence).
    assert (ds1 = ds2) as ->
      by (destruct ds1, ds2; simpl in B8; congruence).
    assert (dims1 = dims2) as ->.
    { destruct dims1 as [|x1 l1], dims2 as [|x2 l2]; try reflexivity;
        repeat case_bool_decide; try congruence.
      assert (Hl : VStr <$> (x1 :: l1) = VStr <$> (x2 :: l2))
        by (simpl in *; congruence).
      now apply (inj (fmap VStr)) in Hl. }
    assert (default [] grp1 = default [] grp2) as ->; [|reflexivity].
    destruct grp1 as [[|g1 gs1]|], grp2 as [[|g2 gs2]|]; try reflexivity;
      try discriminate.
    assert (Hl : group_to_dict <$> (g1 :: gs1)
                 = group_to_dict <$> (g2 :: gs2))
      by (simpl in *; congruence).
    pose proof group_to_dict_inj. simpl.
    now apply (inj (fmap group_to_dict)) in Hl.
  - destruct r1 as [sd1 ed1 dims1 rl1 sr1 sdi1 grp1 agg1 ds1].
    destruct r2 as [sd2 ed2 dims2 rl2 sr2 sdi2 grp2 agg2 ds2].
    unfold sent_fields, to_dict. simpl. intros H. inversion H; subst.
    destruct grp1 as [[|g1 gs1]|], grp2 as [[|g2 gs2]|]; simpl in *;
      try discriminate; try reflexivity.
    congruence.
Qed.

End ToDict.

(** ** The query response (api/_responses.py) *)

Section FromDict.

Import Responses.

Variable float_of_str : string -> option pyfloat.
Variable float_of_big_int : Z -> option pyfloat.

#[local] Abbreviation row_from_dict :=
  (SearchAnalyticsRow_from_dict float_of_str float_of_big_int).
#[local] Abbreviation response_from_dict :=
  (SearchAnalyticsQueryResponse_from_dict float_of_str float_of_big_int).

Lemma comprehension_Value {A B} (f : A -> Raises B) l l' :
  comprehension f l = Value l' <-> Forall2 (fun a b => f a = Value b) l l'.
Proof.
  revert l'. induction l as [|x l IH]; intros l'; simpl.
  - split; [intros H; inversion H; constructor | now inversion 1].
  - split.
    + destruct (f x) as [y|e] eqn:Ex; simpl; [|discriminate].
      destruct (comprehension f l) as [ys|e] eqn:El; simpl; [|discriminate].
      intros H. inversion H; subst. constructor; [assumption|].
      now apply IH.
    + inversion 1 as [|? y ? ys Hx Hl]; subst. rewrite Hx. simpl.
      apply IH in Hl. rewrite Hl. reflexivity.
Qed.

Lemma comprehension_Throw {A B} (f : A -> Raises B) l x e :
  x ∈ l -> f x = Throw e -> exists e', comprehension f l = Throw e'.
Proof.
  induction l as [|y l IH]; intros Hin Hx; [inversion Hin|].
  simpl. apply elem_of_cons in Hin as [->|Hin].
  - rewrite Hx. simpl. eauto.
  - destruct (f y); simpl; [|eauto].
    destruct (IH Hin Hx) as [e' ->]. simpl. eauto.
Qed.

Lemma metric_default (m : gmap string pyval) (k : string) :
  absent_or_falsy m k -> metric float_of_str float_of_big_int m k
                         = Value (Fin 0).
Proof.
  unfold absent_or_falsy, metric, py_or.
  destruct (m !! k) as [v|]; simpl; [intros ->|intros _]; reflexivity.
Qed.

(** X11: the rows of a response are converted one by one, in order, all or
    none.  When ["rows"] holds a list, [from_dict] returns exactly when every
    item converts, with the converted rows in the order of the items and the
    aggregation type as found (or [None]); one item that fails makes the
    whole conversion raise. *)
Theorem response_rows_convert_in_order (m : gmap string pyval)
    (l : list pyval) :
  m !! "rows" = Some (VList l) ->
  (forall r,
     response_from_dict (VDict m) = Value r <->
     Forall2 (fun item row => row_from_dict item = Value row) l (rows r) /\
     response_aggregation_type r
       = default VNone (m !! "responseAggregationType")) /\
  (forall item e, item ∈ l -> row_from_dict item = Throw e ->
     exists e', response_from_dict (VDict m) = Throw e').
Proof.
  intros Hrows. unfold SearchAnalyticsQueryResponse_from_dict.
  rewrite Hrows. simpl. split.
  - intros [rs rat]. simpl. split.
    + destruct (comprehension row_from_dict l) as [ys|e] eqn:E; simpl;
        [|discriminate].
      intros H. inversion H; subst. split; [|reflexivity].
      now apply comprehension_Value.
    + intros [Hf ->]. apply comprehension_Value in Hf. rewrite Hf.
      reflexivity.
  - intros item e Hin He.
    destruct (comprehension_Throw _ _ _ _ Hin He) as [e' ->].
    simpl. eauto.
Qed.

(** X12: a response without ["rows"] has no rows; a response whose ["rows"]
    is [null], a number or a boolean cannot be converted: the loop over it
    raises [TypeError] (a [null] under ["keys"] or under a metric, by
    contrast, is read as absent).  Data that is not a JSON object raises
    [AttributeError]. *)
Theorem response_without_rows (d : pyval) :
  (forall m, d = VDict m -> m !! "rows" = None ->
     response_from_dict d =
       Value (mkSearchAnalyticsQueryResponse []
                (default VNone (m !! "responseAggregationType")))) /\
  (forall m v, d = VDict m -> m !! "rows" = Some v -> not_iterable v ->
     response_from_dict d = Throw TypeError) /\
  ((forall m, d <> VDict m) -> response_from_dict d = Throw AttributeError).
Proof.
  unfold SearchAnalyticsQueryResponse_from_dict. repeat split.
  - intros m -> Hr. rewrite Hr. reflexivity.
  - intros m v -> Hr Hv. rewrite Hr. simpl.
    destruct v; simpl in Hv; try contradiction; reflexivity.
  - intros Hd. destruct d; try reflexivity. now destruct (Hd d).
Qed.

(** X13: a row whose metrics are all missing or falsy ([null], 0, an empty
    string) converts, with 0.0 for each; and the keys of any converted row
    are the truthy value found under ["keys"] or else the empty list, never
    [None]. *)
Theorem row_defaults (m : gmap string pyval) :
  ((forall k, k ∈ metric_names -> absent_or_falsy m k) ->
   row_from_dict (VDict m) =
     Value (mkSearchAnalyticsRow
              (py_or (default (VList []) (m !! "keys")) (VList []))
              (Fin 0) (Fin 0) (Fin 0) (Fin 0))) /\
  (forall r, row_from_dict (VDict m) = Value r ->
     keys r = VList [] \/
     (truthy (keys r) = true /\ m !! "keys" = Some (keys r))).
Proof.
  split.
  - intros H. unfold SearchAnalyticsRow_from_dict.
    rewrite !metric_default by (apply H; unfold metric_names; set_solver).
    reflexivity.
  - intros r. unfold SearchAnalyticsRow_from_dict.
    destruct (metric _ _ m "clicks"); simpl; [|discriminate].
    destruct (metric _ _ m "impressions"); simpl; [|discriminate].
    destruct (metric _ _ m "ctr"); simpl; [|discriminate].
    destruct (metric _ _ m "position"); simpl; [|discriminate].
    intros H. inversion H; subst. simpl. unfold py_or.
    destruct (m !! "keys") as [v|]; simpl; [|now left].
    destruct (truthy v) eqn:T; [right; rewrite T; auto | now left].
Qed.

(** X14: what makes a row fail.  A row that is not a JSON object raises
    [AttributeError]; a metric that holds a non-empty list or object raises
    [TypeError]; a metric that holds a non-empty string [float] cannot read
    raises [ValueError]. *)
Theorem row_conversion_errors (d : pyval) :
  ((forall m, d <> VDict m) -> row_from_dict d = Throw AttributeError) /\
  (forall m v, d = VDict m -> m !! "clicks" = Some v ->
     truthy v = true ->
     (exists l, v = VList l) \/ (exists o, v = VDict o) ->
     row_from_dict d = Throw TypeError) /\
  (forall m s, d = VDict m -> m !! "clicks" = Some (VStr s) ->
     s <> "" -> float_of_str s = None ->
     row_from_dict d = Throw (Builtin ValueError)).
Proof.
  repeat split.
  - intros Hd. destruct d; try reflexivity. now destruct (Hd d).
  - intros m v -> Hc Tv Hv. unfold SearchAnalyticsRow_from_dict, metric.
    rewrite Hc. simpl. unfold py_or. rewrite Tv.
    destruct Hv as [[l ->]|[o ->]]; reflexivity.
  - intros m s -> Hc Hs Hf. unfold SearchAnalyticsRow_from_dict, metric.
    rewrite Hc. simpl. unfold py_or. simpl.
    rewrite bool_decide_eq_false_2 by assumption. simpl.
    rewrite Hf. reflexivity.
Qed.

End FromDict.

(** ** Splitting a header value *)

Lemma append_char_assoc (w : string) (a : Ascii.ascii) (s : string) :
  (w +:+ String a EmptyString) +:+ s = w +:+ String a s.
Proof.
  induction w as [|c w IH]; [reflexivity|].
  change (String c ((w +:+ String a EmptyString) +:+ s)
          = String c (w +:+ String a s)).
  now f_equal.
Qed.

Lemma append_empty_r (w : string) : w +:+ "" = w.
Proof.
  induction w as [|c w IH]; [reflexivity|].
  change (String c (w +:+ "") = String c w). now f_equal.
Qed.

Lemma append_char_nonempty (w : string) (a : Ascii.ascii) :
  w +:+ String a EmptyString <> "".
Proof. destruct w; discriminate. Qed.

Lemma no_space_append_char (w : string) (a : Ascii.ascii) :
  no_space w -> is_space a = false -> no_space (w +:+ String a EmptyString).
Proof.
  induction w as [|c w IH]; simpl; [auto|]. intros [Hc Hw] Ha. auto.
Qed.

(** The parts [split] returns are not empty and hold no whitespace. *)
Lemma split_from_parts (s word : string) :
  no_space word ->
  Forall (fun p => p <> "" /\ no_space p) (split_from word s).
Proof.
  revert word. induction s as [|a s IH]; intros word Hw; simpl.
  - destruct word; constructor; [split; [discriminate | assumption]|].
    constructor.
  - destruct (is_space a) eqn:Ea.
    + destruct word.
      * apply IH. exact I.
      * constructor; [split; [discriminate | assumption]|].
        apply IH. exact I.
    + apply IH. now apply no_space_append_char.
Qed.

(** A run without whitespace is read into the current word. *)
Lemma split_from_word (w word s : string) :
  no_space w -> split_from word (w +:+ s) = split_from (word +:+ w) s.
Proof.
  revert word. induction w as [|a w IH]; intros word Hw; simpl.
  - now rewrite append_empty_r.
  - destruct Hw as [Ha Hw]. rewrite Ha. rewrite (IH _ Hw).
    now rewrite append_char_assoc.
Qed.

(** Whitespace between words is skipped. *)
Lemma split_from_space (ws s : string) :
  all_space ws -> split_from "" (ws +:+ s) = split_from "" s.
Proof.
  induction ws as [|a ws IH]; simpl; [reflexivity|].
  intros [Ha Hws]. rewrite Ha. auto.
Qed.

(** Whitespace after a word ends it. *)
Lemma split_from_end_of_word (word ws s : string) :
  word <> "" -> ws <> "" -> all_space ws ->
  split_from word (ws +:+ s) = word :: split_from "" s.
Proof.
  intros Hw Hne Hws. destruct ws as [|a ws]; [contradiction|].
  destruct Hws as [Ha Hws]. simpl. rewrite Ha.
  destruct word; [contradiction|]. f_equal.
  now apply split_from_space.
Qed.

Lemma split_from_trailing (word ws : string) :
  word <> "" -> all_space ws -> split_from word ws = [word].
Proof.
  intros Hw Hws. destruct ws as [|a ws].
  - simpl. destruct word; [contradiction | reflexivity].
  - rewrite <- (append_empty_r (String a ws)).
    rewrite split_from_end_of_word by (assumption || discriminate).
    reflexivity.
Qed.

(** ** The bearer-token dependency (api/deps.py) *)

Section GetClient.

Variable HTTP_SETTINGS : Config.HttpSettings.

(** X15: [get_client] rejects with status 401 only, and for one of two
    reasons, a missing header or a malformed one: its third check can never
    fire, because [split] returns no empty part, so the detail
    "Empty bearer token" is never produced. *)
Theorem get_client_rejections (authorization : option string)
    (e : HTTPException) :
  get_client HTTP_SETTINGS authorization = inr e ->
  exc_status_code e = 401 /\
  (detail e = "Missing Authorization header" /\
   (authorization = None \/ authorization = Some "") \/
   detail e = "Invalid Authorization header format" /\
   exists a, authorization = Some a /\ a <> "" /\
     forall scheme token,
       py_split a = [scheme; token] -> py_lower scheme <> "bearer").
Proof.
  unfold get_client. destruct authorization as [[|c a]|].
  - intros H. inversion H. simpl. auto.
  - pose proof (split_from_parts (String c a) "" I) as Hparts.
    fold (py_split (String c a)) in Hparts.
    destruct (py_split (String c a)) as [|scheme [|token [|x l]]] eqn:Es.
    + intros H. inversion H. simpl. split; [reflexivity|]. right.
      split; [reflexivity|]. exists (String c a).
      split; [reflexivity|]. split; [discriminate|].
      intros s t Hst. rewrite Es in Hst. discriminate.
    + intros H. inversion H. simpl. split; [reflexivity|]. right.
      split; [reflexivity|]. exists (String c a).
      split; [reflexivity|]. split; [discriminate|].
      intros s t Hst. rewrite Es in Hst. discriminate.
    + case_bool_decide as Hl.
      * destruct token as [|t token].
        -- apply Forall_cons in Hparts as [_ Hparts].
           apply Forall_cons in Hparts as [[Hne _] _]. contradiction.
        -- discriminate.
      * intros H. inversion H. simpl. split; [reflexivity|]. right.
        split; [reflexivity|]. exists (String c a).
        split; [reflexivity|]. split; [discriminate|].
        intros s t Hst. rewrite Es in Hst. inversion Hst; subst.
        assumption.
    + intros H. inversion H. simpl. split; [reflexivity|]. right.
      split; [reflexivity|]. exists (String c a).
      split; [reflexivity|]. split; [discriminate|].
      intros s t Hst. rewrite Es in Hst. discriminate.
  - intros H. inversion H. simpl. auto.
Qed.

(** X16: a client comes out of [get_client] only for a header of exactly two
    whitespace-separated parts whose first is "bearer" in any letter case.
    Its token is the second part: it is not empty and holds no whitespace,
    its [Authorization] header is "Bearer " followed by the token, and its
    timeout is the configured default. *)
Theorem get_client_token (authorization : option string) (c : GSCClient) :
  get_client HTTP_SETTINGS authorization = inl c ->
  exists a scheme,
    authorization = Some a /\
    py_split a = [scheme; _access_token c] /\
    py_lower scheme = "bearer" /\
    _access_token c <> "" /\ no_space (_access_token c) /\
    _session_headers c !! "Authorization"
      = Some ("Bearer " +:+ _access_token c) /\
    _timeout c = Config.timeout HTTP_SETTINGS.
Proof.
  unfold get_client. destruct authorization as [[|ch a]|]; try discriminate.
  pose proof (split_from_parts (String ch a) "" I) as Hparts.
  fold (py_split (String ch a)) in Hparts.
  destruct (py_split (String ch a)) as [|scheme [|token [|x l]]] eqn:Es;
    try discriminate.
  case_bool_decide as Hl; [|discriminate].
  destruct token as [|t token]; [discriminate|].
  intros H. inversion H; subst. simpl.
  exists (String ch a), scheme.
  apply Forall_cons in Hparts as [_ Hparts].
  apply Forall_cons in Hparts as [[Hne Hns] _].
  split; [reflexivity|]. split; [exact Es|]. split; [exact Hl|].
  split; [exact Hne|]. split; [exact Hns|].
  split; [apply lookup_insert_eq | reflexivity].
Qed.

(** X17: surrounding and repeated whitespace and the letter case of the
    scheme do not matter: a header made of optional whitespace, a scheme that
    lowers to "bearer", at least one whitespace character, a token without
    whitespace and optional whitespace is accepted, and the client holds
    exactly the token. *)
Theorem get_client_accepts_spaced_header
    (lead scheme gap token trail : string) :
  all_space lead -> all_space gap -> gap <> "" -> all_space trail ->
  py_lower scheme = "bearer" -> no_space scheme ->
  token <> "" -> no_space token ->
  get_client HTTP_SETTINGS
    (Some (lead +:+ scheme +:+ gap +:+ token +:+ trail))
  = inl (GSCClient_init HTTP_SETTINGS token None None).
Proof.
  intros Hlead Hgap Hgne Htrail Hlow Hns Htne Htns.
  assert (Hsne : scheme <> "") by (intros ->; discriminate).
  assert (Hsplit : py_split (lead +:+ scheme +:+ gap +:+ token +:+ trail)
                   = [scheme; token]).
  { unfold py_split. rewrite split_from_space by assumption.
    rewrite split_from_word by assumption. simpl.
    rewrite split_from_end_of_word by assumption.
    rewrite split_from_word by assumption. simpl.
    now rewrite split_from_trailing. }
  unfold get_client. rewrite Hsplit.
  destruct (lead +:+ scheme +:+ gap +:+ token +:+ trail) eqn:E.
  - exfalso. destruct lead; [|discriminate]. destruct scheme; [|discriminate].
    contradiction.
  - rewrite bool_decide_eq_true_2 by assumption.
    destruct token; [contradiction | reflexivity].
Qed.

End GetClient.

(** ** Percent-encoding *)

Lemma unquote_head_quote_byte (b : Ascii.ascii) (rest : string) :
  unquote_head (quote_byte b +:+ rest) = Some (b, rest).
Proof.
  destruct b as [[] [] [] [] [] [] [] []]; reflexivity.
Qed.

Lemma decode_head_utf8_char (a : Ascii.ascii) (rest : list Ascii.ascii) :
  decode_head (utf8_char a ++ rest) = Some (a, rest).
Proof.
  destruct a as [[] [] [] [] [] [] [] []]; reflexivity.
Qed.

Lemma quote_byte_chars (b : Ascii.ascii) :
  string_forall quoted_char (quote_byte b) = true.
Proof.
  destruct b as [[] [] [] [] [] [] [] []]; reflexivity.
Qed.

Lemma quoted_char_not_slash (c : Ascii.ascii) :
  quoted_char c = true -> not_slash c = true.
Proof.
  destruct c as [[] [] [] [] [] [] [] []]; simpl; intros H;
    first [reflexivity | discriminate H].
Qed.

Lemma string_forall_app p (s1 s2 : string) :
  string_forall p (s1 +:+ s2) = string_forall p s1 && string_forall p s2.
Proof.
  induction s1 as [|a s1 IH]; [reflexivity|].
  change (p a && string_forall p (s1 +:+ s2)
          = p a && string_forall p s1 && string_forall p s2).
  rewrite IH. now rewrite andb_assoc.
Qed.

Lemma string_forall_impl (p q : Ascii.ascii -> bool) (s : string) :
  (forall c, p c = true -> q c = true) ->
  string_forall p s = true -> string_forall q s = true.
Proof.
  intros Hpq. induction s as [|a s IH]; simpl; [reflexivity|].
  intros H. apply andb_prop in H as [Ha Hs].
  rewrite (Hpq a Ha). simpl. auto.
Qed.

Lemma quote_from_bytes_inj : Inj (=) (=) quote_from_bytes.
Proof.
  intros l1. induction l1 as [|b1 l1 IH]; intros [|b2 l2] H.
  - reflexivity.
  - apply (f_equal unquote_head) in H. simpl in H.
    rewrite unquote_head_quote_byte in H. discriminate.
  - apply (f_equal unquote_head) in H. simpl in H.
    rewrite unquote_head_quote_byte in H. discriminate.
  - apply (f_equal unquote_head) in H. simpl in H.
    rewrite !unquote_head_quote_byte in H. inversion H; subst.
    f_equal. now apply IH.
Qed.

Lemma encode_utf8_inj : Inj (=) (=) encode_utf8.
Proof.
  intros s1. induction s1 as [|a1 s1 IH]; intros [|a2 s2] H.
  - reflexivity.
  - apply (f_equal decode_head) in H. simpl in H.
    rewrite decode_head_utf8_char in H. discriminate.
  - apply (f_equal decode_head) in H. simpl in H.
    rewrite decode_head_utf8_char in H. discriminate.
  - apply (f_equal decode_head) in H. simpl in H.
    rewrite !decode_head_utf8_char in H. inversion H; subst.
    f_equal. now apply IH.
Qed.

Lemma quote_chars (s : string) :
  string_forall quoted_char (quote s) = true.
Proof.
  unfold quote. induction (encode_utf8 s) as [|b l IH]; [reflexivity|].
  simpl. rewrite string_forall_app, quote_byte_chars, IH. reflexivity.
Qed.

Lemma quote_no_slash (s : string) : string_forall not_slash (quote s) = true.
Proof.
  apply string_forall_impl with (p := quoted_char);
    [apply quoted_char_not_slash | apply quote_chars].
Qed.

Lemma quote_inj (s1 s2 : string) : quote s1 = quote s2 -> s1 = s2.
Proof.
  intros H. unfold quote in H.
  now apply quote_from_bytes_inj, encode_utf8_inj in H.
Qed.

(** X18: [quote] with no safe characters is injective, and what it returns
    is made of ASCII letters, digits, [_.-~] and [%] only: in particular it
    holds no [/]. *)
Theorem quote_is_injective_and_slash_free (s1 s2 : string) :
  (quote s1 = quote s2 -> s1 = s2) /\
  string_forall quoted_char (quote s1) = true /\
  string_forall not_slash (quote s1) = true.
Proof.
  split; [apply quote_inj|]. split; [apply quote_chars|].
  apply quote_no_slash.
Qed.

(** ** The request URLs (client.py) *)

Lemma append_inv_head (a x y : string) : a +:+ x = a +:+ y -> x = y.
Proof.
  induction a as [|c a IH]; [trivial|].
  change (String c (a +:+ x) = String c (a +:+ y) -> x = y).
  intros H. inversion H. auto.
Qed.

(** A string with a slash does not pass for slash-free. *)
Lemma slash_found (p r : string) :
  string_forall not_slash (p +:+ String slash r) = false.
Proof.
  rewrite string_forall_app.
  change (string_forall not_slash (String slash r))
    with (not_slash slash && string_forall not_slash r).
  change (not_slash slash) with false. apply andb_false_r.
Qed.

(** Two strings that agree up to and including their first slash. *)
Lemma split_at_slash (p1 p2 r1 r2 : string) :
  string_forall not_slash p1 = true -> string_forall not_slash p2 = true ->
  p1 +:+ String slash r1 = p2 +:+ String slash r2 ->
  p1 = p2 /\ r1 = r2.
Proof.
  revert p2. induction p1 as [|c1 p1 IH]; intros [|c2 p2] H1 H2 H.
  - inversion H. auto.
  - change (String slash r1 = String c2 (p2 +:+ String slash r2)) in H.
    inversion H; subst.
    change (not_slash slash && string_forall not_slash p2 = true) in H2.
    discriminate.
  - change (String c1 (p1 +:+ String slash r1) = String slash r2) in H.
    inversion H; subst.
    change (not_slash slash && string_forall not_slash p1 = true) in H1.
    discriminate.
  - change (String c1 (p1 +:+ String slash r1)
            = String c2 (p2 +:+ String slash r2)) in H.
    inversion H; subst. simpl in H1, H2.
    apply andb_prop in H1 as [_ H1]. apply andb_prop in H2 as [_ H2].
    destruct (IH p2 H1 H2) as [-> ->]; auto.
Qed.


Section Urls.

Import Client.

(** Cancelling the common start of two URLs built on one site path. *)
Lemma site_prefix_inv (x y : string) :
  Config.BASE_URL_WEBMASTERS +:+ "/sites/" +:+ x
  = Config.BASE_URL_WEBMASTERS +:+ "/sites/" +:+ y -> x = y.
Proof.
  intros H. apply append_inv_head in H. now apply append_inv_head in H.
Qed.

(** X19: the URLs of the site and sitemap methods cannot be confused.  The
    URL of a site determines the site, the URL of a sitemap determines the
    site and the feed path, and whatever the site identifiers contain, the
    URL of a site is never the sitemap list, a sitemap or the query URL of
    another. *)
Theorem urls_are_unambiguous (s1 f1 s2 f2 : string) :
  (site_url_of s1 = site_url_of s2 -> s1 = s2) /\
  (sitemap_url_of s1 f1 = sitemap_url_of s2 f2 -> s1 = s2 /\ f1 = f2) /\
  site_url_of s1 <> sitemaps_url_of s2 /\
  site_url_of s1 <> sitemap_url_of s2 f2 /\
  site_url_of s1 <> query_url_of s2 /\
  sitemaps_url_of s1 <> sitemap_url_of s2 f2.
Proof.
  repeat split.
  - unfold site_url_of. intros H. apply site_prefix_inv in H.
    now apply quote_inj.
  - unfold sitemap_url_of in H. apply site_prefix_inv in H.
    change (quote s1 +:+ String slash ("sitemaps/" +:+ quote f1)
            = quote s2 +:+ String slash ("sitemaps/" +:+ quote f2)) in H.
    apply split_at_slash in H as [H _]; try apply quote_no_slash.
    now apply quote_inj.
  - unfold sitemap_url_of in H. apply site_prefix_inv in H.
    change (quote s1 +:+ String slash ("sitemaps/" +:+ quote f1)
            = quote s2 +:+ String slash ("sitemaps/" +:+ quote f2)) in H.
    apply split_at_slash in H as [_ H]; try apply quote_no_slash.
    apply append_inv_head in H. now apply quote_inj.
  - unfold site_url_of, sitemaps_url_of. intros H.
    apply site_prefix_inv in H.
    pose proof (quote_no_slash s1) as Hs. rewrite H in Hs.
    change (quote s2 +:+ "/sitemaps")
      with (quote s2 +:+ String slash "sitemaps") in Hs.
    rewrite slash_found in Hs. discriminate.
  - unfold site_url_of, sitemap_url_of. intros H.
    apply site_prefix_inv in H.
    pose proof (quote_no_slash s1) as Hs. rewrite H in Hs.
    change (quote s2 +:+ "/sitemaps/" +:+ quote f2)
      with (quote s2 +:+ String slash ("sitemaps/" +:+ quote f2)) in Hs.
    rewrite slash_found in Hs. discriminate.
  - unfold site_url_of, query_url_of. intros H.
    apply site_prefix_inv in H.
    pose proof (quote_no_slash s1) as Hs. rewrite H in Hs.
    change (quote s2 +:+ "/searchAnalytics/query")
      with (quote s2 +:+ String slash "searchAnalytics/query") in Hs.
    rewrite slash_found in Hs. discriminate.
  - unfold sitemaps_url_of, sitemap_url_of. intros H.
    apply site_prefix_inv in H.
    change (quote s1 +:+ String slash "sitemaps"
            = quote s2 +:+ String slash ("sitemaps/" +:+ quote f2)) in H.
    apply split_at_slash in H as [_ H]; try apply quote_no_slash.
    change ("sitemaps" +:+ ""
            = "sitemaps" +:+ String slash (quote f2)) in H.
    apply append_inv_head in H. discriminate.
Qed.

End Urls.

(** ** The API methods (client.py) *)

Lemma requests_replicate (tr : list Event) (rq : Request) :
  Forall (eq rq) (requests tr) ->
  requests tr = replicate (length (requests tr)) rq.
Proof.
  intros H. induction H as [|x l <- _ IH]; [reflexivity|].
  simpl. f_equal. exact IH.
Qed.

Section Methods.

Variable float_of_str : string -> option pyfloat.
Variable py_repr : pyval -> string.
Variable float_of_big_int : Z -> option pyfloat.
Variable W : Type.
Variable session_request : Request -> W -> Response * W.

(** A method is one call of the executor: it ends after one to six attempts
    that all sent the method's request, as the last response decides. *)
Lemma request_then_run {A} (post : pyval -> Raises A) fuel self method url
    body w :
  (6 <= fuel)%nat ->
  exists o tr w' n b rs,
    Client.request_then float_of_str py_repr W session_request post
      fuel self method url body w = Some (lift_outcome post o, tr, w') /\
    last (responses tr) = Some rs /\
    handle float_of_str py_repr n b rs = Done o /\
    (1 <= n <= 6)%nat /\
    requests tr = replicate n (mkRequest method url body (_timeout self)).
Proof.
  intros Hf.
  destruct (request_run float_of_str py_repr W session_request
              fuel (_timeout self) method url body w Hf)
    as (o & tr & w' & n & b & rs & Hrun & Hl & _ & Hp & Hn & Hb & Hrq & _).
  exists o, tr, w', n, b, rs. unfold Client.request_then. rewrite Hrun.
  simpl. repeat split; auto; try lia.
  destruct (log_lengths tr) as (Lr & _).
  rewrite (requests_replicate tr _ Hrq). now rewrite Lr, <- Hn.
Qed.

(** Only a response with a success status makes a pass return. *)
Lemma handle_Return n b rs v :
  handle float_of_str py_repr n b rs = Done (Return v) ->
  is_success (status_code rs).
Proof.
  intros Hp.
  destruct (status_cases (status_code rs))
    as [Hs | [Hs [E | [E | [E | [E1 E2]]]]]]; [assumption|exfalso..].
  - rewrite handle_401 in Hp by assumption. discriminate.
  - assert (Hr : is_retryable (status_code rs)) by now left.
    destruct (handle_retryable_Done _ _ _ _ _ _ Hr Hp)
      as [(_ & x & Hx)|(_ & Hx)]; discriminate.
  - assert (Hr : is_retryable (status_code rs)) by now right.
    destruct (handle_retryable_Done _ _ _ _ _ _ Hr Hp)
      as [(_ & x & Hx)|(_ & Hx)]; discriminate.
  - rewrite handle_other in Hp by assumption. discriminate.
Qed.

(** X20: [sites_add] and [sitemaps_delete] drop the value [_request]
    returns, but the body of the final response is parsed all the same: after
    a success status they return [None] when the body is empty or is JSON,
    and let the parser's exception escape when the body is anything else. *)
Theorem dropped_body_is_still_parsed fuel self site feed w :
  (6 <= fuel)%nat ->
  (exists c tr w',
     Client.sites_add float_of_str py_repr W session_request
       fuel self site w = Some (c, tr, w') /\ parsed_then_dropped c tr) /\
  (exists c tr w',
     Client.sitemaps_delete float_of_str py_repr W session_request
       fuel self site feed w = Some (c, tr, w') /\
     parsed_then_dropped c tr).
Proof.
  intros Hf.
  assert (Hgen : forall method url,
    exists c tr w',
      Client.request_then float_of_str py_repr W session_request
        (fun _ => Value ()) fuel self method url None w = Some (c, tr, w') /\
      parsed_then_dropped c tr).
  { intros method url.
    destruct (request_then_run (fun _ => Value ()) fuel self method url
                None w Hf)
      as (o & tr & w' & n & b & rs & Hrun & Hl & Hp & _).
    eexists _, tr, w'. split; [exact Hrun|].
    unfold parsed_then_dropped.
    intros rs' Hl' Hok. rewrite Hl in Hl'. inversion Hl'; subst rs'.
    rewrite handle_success in Hp by assumption. inversion Hp as [Ho].
    split.
    - intros [Hc|[v Hv]].
      + rewrite Hc. reflexivity.
      + rewrite Hv. destruct (content rs); reflexivity.
    - intros Hc Hj. rewrite Hj.
      destruct (content rs); [contradiction | reflexivity]. }
  split; apply Hgen.
Qed.

(** X21: [delete_sitemap_util] sends [DELETE] requests, all alike, to the
    URL of the sitemap; it returns the dict with ["status"] set to
    ["deleted"] only after a final response with a success status, and
    raises the typed error of the final response otherwise. *)
Theorem delete_sitemap_util_outcome fuel client site feed w :
  (6 <= fuel)%nat ->
  exists c tr w' n,
    Sitemaps.delete_sitemap_util float_of_str py_repr W session_request
      fuel client site feed w = Some (c, tr, w') /\
    (1 <= n <= 6)%nat /\
    requests tr =
      replicate n (mkRequest "DELETE" (Client.sitemap_url_of site feed)
                     None (_timeout client)) /\
    (forall d, c = Returned d ->
       d = VDict {[ "status" := VStr "deleted" ]} /\
       exists rs, last (responses tr) = Some rs /\
                  is_success (status_code rs)) /\
    (forall e, c = Raised e ->
       exists rs, last (responses tr) = Some rs /\
                  e = error_of_response py_repr rs).
Proof.
  intros Hf. unfold Sitemaps.delete_sitemap_util, Client.sitemaps_delete.
  destruct (request_then_run (fun _ => Value ()) fuel client "DELETE"
              (Client.sitemap_url_of site feed) None w Hf)
    as (o & tr & w' & n & b & rs & Hrun & Hl & Hp & Hn & Hrq).
  rewrite Hrun. simpl. eexists _, tr, w', n.
  split; [reflexivity|]. split; [assumption|]. split; [assumption|].
  split.
  - intros d Hd. destruct o as [v|e|e]; simpl in Hd; try discriminate.
    inversion Hd; subst. split; [reflexivity|]. exists rs.
    split; [assumption|].
    destruct (status_cases (status_code rs)) as [Hs|[Hs _]];
      [assumption|].
    exfalso. unfold handle in Hp.
    rewrite (not_success_test _ Hs) in Hp.
    destruct (parse_error rs).
    repeat (destruct (_ =? _) || destruct (_ && _) ||
            destruct (_ <=? _)%nat); try discriminate;
      unfold sleep_then_retry in Hp;
      repeat match type of Hp with
             | context [match ?x with _ => _ end] => destruct x
             end; discriminate.
  - intros e He. destruct o as [v|e'|e']; simpl in He; try discriminate.
    inversion He; subst. exists rs. split; [assumption|].
    now apply handle_Raise in Hp as (_ & -> & _).
Qed.

(** X22: [search_analytics_query] posts the payload [to_dict] builds, the
    same on every attempt, to the query URL of the site.  After a final
    success response with an empty body it returns a response without rows
    and without aggregation type; after one with a JSON body it returns what
    [from_dict] makes of it, or lets escape what [from_dict] raises. *)
Theorem search_analytics_query_outcome fuel self site req w :
  (6 <= fuel)%nat ->
  exists c tr w' n,
    Client.search_analytics_query float_of_str py_repr float_of_big_int
      W session_request fuel self site req w = Some (c, tr, w') /\
    (1 <= n <= 6)%nat /\
    requests tr =
      replicate n (mkRequest "POST" (Client.query_url_of site)
                     (Some (VDict (Requests.to_dict req)))
                     (_timeout self)) /\
    forall rs, last (responses tr) = Some rs ->
      is_success (status_code rs) ->
      (content rs = [] ->
       c = Returned (Responses.mkSearchAnalyticsQueryResponse [] VNone)) /\
      (content rs <> [] -> forall v, json rs = Some v ->
       c = match Responses.SearchAnalyticsQueryResponse_from_dict
                   float_of_str float_of_big_int v with
           | Value r => Returned r
           | Throw e => Escaped e
           end).
Proof.
  intros Hf. unfold Client.search_analytics_query.
  destruct (request_then_run
              (Responses.SearchAnalyticsQueryResponse_from_dict
                 float_of_str float_of_big_int)
              fuel self "POST" (Client.query_url_of site)
              (Some (VDict (Requests.to_dict req))) w Hf)
    as (o & tr & w' & n & b & rs & Hrun & Hl & Hp & Hn & Hrq).
  eexists _, tr, w', n. split; [exact Hrun|].
  split; [assumption|]. split; [assumption|].
  intros rs' Hl' Hok. rewrite Hl in Hl'. inversion Hl'; subst rs'.
  rewrite handle_success in Hp by assumption. inversion Hp as [Ho].
  split.
  - intros Hc. rewrite Hc. reflexivity.
  - intros Hc v Hv. rewrite Hv.
    destruct (content rs); [contradiction | reflexivity].
Qed.

End Methods.

(** ** The query utility (api/search_analytics.py) *)

Section QueryUtility.

Import SearchAnalytics.

Variable float_of_str : string -> option pyfloat.
Variable py_repr : pyval -> string.
Variable float_of_big_int : Z -> option pyfloat.
Variable W : Type.
Variable session_request : Request -> W -> Response * W.

#[local] Abbreviation row_from_dict :=
  (Responses.SearchAnalyticsRow_from_dict float_of_str float_of_big_int).
#[local] Abbreviation response_from_dict :=
  (Responses.SearchAnalyticsQueryResponse_from_dict
     float_of_str float_of_big_int).

Lemma metric_reads_back (m : gmap string pyval) (k : string) (f : pyfloat) :
  m !! k = Some (VFloat f) -> reads_back f ->
  Responses.metric float_of_str float_of_big_int m k = Value f.
Proof.
  intros Hk Hf. unfold Responses.metric. rewrite Hk. simpl. unfold py_or.
  destruct f as [q| |]; simpl; try reflexivity.
  destruct (Qeq_bool q 0) eqn:E; simpl; [|reflexivity].
  simpl in Hf. rewrite (Hf E). reflexivity.
Qed.

Lemma row_round_trip (r : Responses.SearchAnalyticsRow) :
  row_normal r -> row_from_dict (row_to_dict r) = Value r.
Proof.
  destruct r as [k c i t p]. intros (Hk & Hc & Hi & Ht & Hp). simpl in *.
  unfold row_to_dict, Responses.SearchAnalyticsRow_from_dict. simpl.
  rewrite (metric_reads_back _ "clicks" c) by
    (try assumption; rewrite lookup_insert_ne by discriminate;
     apply lookup_insert_eq).
  rewrite (metric_reads_back _ "impressions" i) by
    (try assumption; rewrite !lookup_insert_ne by discriminate;
     apply lookup_insert_eq).
  rewrite (metric_reads_back _ "ctr" t) by
    (try assumption; rewrite !lookup_insert_ne by discriminate;
     apply lookup_insert_eq).
  rewrite (metric_reads_back _ "position" p) by
    (try assumption; rewrite !lookup_insert_ne by discriminate;
     apply lookup_singleton_eq).
  simpl. rewrite lookup_insert_eq. simpl. unfold py_or.
  destruct Hk as [->|Hk]; [reflexivity | now rewrite Hk].
Qed.

Lemma comprehension_fmap {A B} (f : B -> Raises A) (g : A -> B) l :
  Forall (fun x => f (g x) = Value x) l ->
  comprehension f (g <$> l) = Value l.
Proof.
  intros H. apply comprehension_Value.
  induction H as [|x l Hx _ IH]; constructor; assumption.
Qed.

(** X23: round trip.  The plain dict the utility makes of a response reads
    back, through [from_dict], as that response, provided each row has keys
    that are truthy or the empty list and no metric that is a zero other
    than [0.0]. *)
Theorem response_dict_reads_back
    (resp : Responses.SearchAnalyticsQueryResponse) :
  Forall row_normal (Responses.rows resp) ->
  response_from_dict (response_to_dict resp) = Value resp.
Proof.
  destruct resp as [rows rat]. simpl. intros Hn.
  unfold response_to_dict, Responses.SearchAnalyticsQueryResponse_from_dict.
  simpl. rewrite lookup_insert_eq. simpl.
  rewrite comprehension_fmap.
  - simpl. rewrite lookup_insert_ne by discriminate.
    rewrite lookup_singleton_eq. reflexivity.
  - eapply Forall_impl; [exact Hn|]. intros r Hr. now apply row_round_trip.
Qed.

(** X24: [search_analytics_query_util] posts to the query URL of
    [body.siteUrl] the payload of the request built from the body, the same
    on every attempt.  The payload never holds the site URL; it holds
    ["dimensions"] only for a non-empty list, so that [None] and the empty
    list are sent alike.  What the utility returns is the plain dict of a
    response. *)
Theorem search_analytics_query_util_outcome fuel client body w :
  (6 <= fuel)%nat ->
  exists c tr w' n,
    search_analytics_query_util float_of_str py_repr float_of_big_int
      W session_request fuel client body w = Some (c, tr, w') /\
    (1 <= n <= 6)%nat /\
    requests tr =
      replicate n (mkRequest "POST" (Client.query_url_of (siteUrl body))
                     (Some (VDict (Requests.to_dict (request_of_body body))))
                     (_timeout client)) /\
    Requests.to_dict (request_of_body body) !! "siteUrl" = None /\
    (is_Some (Requests.to_dict (request_of_body body) !! "dimensions") <->
     exists x l, dimensions body = Some (x :: l)) /\
    (forall d, c = Returned d -> exists resp, d = response_to_dict resp).
Proof.
  intros Hf.
  unfold search_analytics_query_util, Client.search_analytics_query.
  destruct (request_then_run float_of_str py_repr W session_request
              response_from_dict
              fuel client "POST" (Client.query_url_of (siteUrl body))
              (Some (VDict (Requests.to_dict (request_of_body body)))) w Hf)
    as (o & tr & w' & n & b & rs & Hrun & Hl & Hp & Hn & Hrq).
  rewrite Hrun. simpl. eexists _, tr, w', n.
  split; [reflexivity|]. split; [assumption|]. split; [assumption|].
  destruct (to_dict_lookup (request_of_body body))
    as (_ & _ & H3 & _ & _ & _ & _ & _ & Hother).
  split; [|split].
  - apply Hother. unfold Requests.payload_keys.
    rewrite !not_elem_of_cons. repeat split; try discriminate.
    apply not_elem_of_nil.
  - rewrite H3. simpl. destruct (dimensions body) as [[|x l]|]; simpl.
    + split; [now inversion 1 | intros (x & l & Hx); discriminate].
    + split; [eauto | eauto].
    + split; [now inversion 1 | intros (x & l & Hx); discriminate].
  - intros d Hd. destruct (lift_outcome response_from_dict o) as [r|e|e];
      try discriminate.
    inversion Hd; subst. eauto.
Qed.

End QueryUtility.

(** ** Concrete runs of the further properties *)

Lemma only_retryable_statuses_are_retried_witness :
  (6 <= 6)%nat /\
  exists o tr w',
    sites_list [unavailable; unavailable; not_found] = Some (o, tr, w') /\
    Forall (fun rs => is_retryable (status_code rs))
           (removelast (responses tr)) /\
    S (length (sleeps tr)) = length (responses tr) /\
    (length (sleeps tr) <= 5)%nat.
Proof.
  split; [lia|].
  apply (only_retryable_statuses_are_retried float_of_digits repr_opaque
           _ replay 6 30 "GET" sites_url None
           [unavailable; unavailable; not_found]).
  lia.
Defined.

Lemma plain_sleeps_are_bounded_witness :
  (6 <= 6)%nat /\
  exists o tr w',
    sites_list (replicate 6 unavailable) = Some (o, tr, w') /\
    (no_retry_after tr ->
     sleeps tr = take (length (sleeps tr)) [1; 2; 4; 8; 16]%Q /\
     (total_sleep tr <= 31)%Q).
Proof.
  split; [lia|].
  apply (plain_sleeps_are_bounded float_of_digits repr_opaque
           _ replay 6 30 "GET" sites_url None (replicate 6 unavailable)).
  lia.
Defined.



Lemma reason_comes_from_first_sub_error_witness :
  snd (parse_error quota_exceeded) <> VNone /\
  exists d e r0 rest,
    json quota_exceeded = Some (VDict d) /\
    d !! "error" = Some (VDict e) /\
    e !! "errors" = Some (VList (VDict r0 :: rest)) /\
    r0 !! "reason" = Some (snd (parse_error quota_exceeded)).
Proof.
  assert (H1 : snd (parse_error quota_exceeded) <> VNone)
    by (vm_compute; discriminate).
  refine (conj H1 _).
  exact (reason_comes_from_first_sub_error quota_exceeded H1).
Defined.

Lemma misshapen_error_body_falls_back_to_text_witness :
  json invalid_grant
    = Some (VDict {[ "error" := VStr "invalid_grant";
                     "message" := VStr "Token expired" ]}) /\
  (forall d,
     VDict {[ "error" := VStr "invalid_grant";
              "message" := VStr "Token expired" ]} = VDict d ->
     exists x, d !! "error" = Some x /\ forall e, x <> VDict e) /\
  parse_error invalid_grant = (VStr (text invalid_grant), VNone).
Proof.
  assert (H1 : json invalid_grant
               = Some (VDict {[ "error" := VStr "invalid_grant";
                                "message" := VStr "Token expired" ]}))
    by reflexivity.
  assert (H2 : forall d,
     VDict {[ "error" := VStr "invalid_grant";
              "message" := VStr "Token expired" ]} = VDict d ->
     exists x, d !! "error" = Some x /\ forall e, x <> VDict e).
  { intros d Hd. inversion Hd; subst. exists (VStr "invalid_grant").
    split; [vm_compute; reflexivity | discriminate]. }
  refine (conj H1 (conj H2 _)).
  exact (misshapen_error_body_falls_back_to_text invalid_grant _ H1 H2).
Defined.

Lemma error_message_precedence_witness :
  json quota_exceeded
    = Some (VDict {[ "error" :=
                VDict {[ "message" := VStr "Quota exceeded";
                         "errors" :=
                           VList [VDict {[ "reason" :=
                                             VStr "quotaExceeded" ]}] ]} ]}) /\
  truthy (VStr "Quota exceeded") = true /\
  fst (parse_error quota_exceeded) = VStr "Quota exceeded".
Proof.
  assert (H1 : json quota_exceeded
    = Some (VDict {[ "error" :=
                VDict {[ "message" := VStr "Quota exceeded";
                         "errors" :=
                           VList [VDict {[ "reason" :=
                                             VStr "quotaExceeded" ]}] ]} ]}))
    by reflexivity.
  assert (H2 : truthy (VStr "Quota exceeded") = true) by reflexivity.
  refine (conj H1 (conj H2 _)).
  refine (proj1 (error_message_precedence quota_exceeded _ _ H1 H2) _ _ _);
    vm_compute; reflexivity.
Defined.

Lemma response_rows_convert_in_order_witness :
  rows_data !! "rows" = Some (VList [row_data]) /\
  ((forall r,
      Responses.SearchAnalyticsQueryResponse_from_dict
        float_of_digits big_int_unused (VDict rows_data) = Value r <->
      Forall2 (fun item row =>
                 Responses.SearchAnalyticsRow_from_dict
                   float_of_digits big_int_unused item = Value row)
              [row_data] (Responses.rows r) /\
      Responses.response_aggregation_type r
        = default VNone (rows_data !! "responseAggregationType")) /\
   (forall item e, item ∈ [row_data] ->
      Responses.SearchAnalyticsRow_from_dict
        float_of_digits big_int_unused item = Throw e ->
      exists e',
        Responses.SearchAnalyticsQueryResponse_from_dict
          float_of_digits big_int_unused (VDict rows_data) = Throw e')).
Proof.
  assert (H1 : rows_data !! "rows" = Some (VList [row_data]))
    by (vm_compute; reflexivity).
  refine (conj H1 _).
  exact (response_rows_convert_in_order float_of_digits big_int_unused
           rows_data [row_data] H1).
Defined.

Lemma get_client_rejections_witness :
  get_client default_settings (Some "Token abc")
    = inr (mkHTTPException 401 "Invalid Authorization header format") /\
  exc_status_code
    (mkHTTPException 401 "Invalid Authorization header format") = 401 /\
  (detail (mkHTTPException 401 "Invalid Authorization header format")
     = "Missing Authorization header" /\
   (Some "Token abc" = None \/ Some "Token abc" = Some "") \/
   detail (mkHTTPException 401 "Invalid Authorization header format")
     = "Invalid Authorization header format" /\
   exists a, Some "Token abc" = Some a /\ a <> "" /\
     forall scheme token,
       py_split a = [scheme; token] -> py_lower scheme <> "bearer").
Proof.
  assert (H1 : get_client default_settings (Some "Token abc")
               = inr (mkHTTPException 401
                        "Invalid Authorization header format"))
    by reflexivity.
  refine (conj H1 _).
  exact (get_client_rejections default_settings _ _ H1).
Defined.

Lemma get_client_token_witness :
  get_client default_settings (Some "Bearer abc")
    = inl (GSCClient_init default_settings "abc" None None) /\
  exists a scheme,
    Some "Bearer abc" = Some a /\
    py_split a
      = [scheme;
         _access_token (GSCClient_init default_settings "abc" None None)] /\
    py_lower scheme = "bearer" /\
    _access_token (GSCClient_init default_settings "abc" None None) <> "" /\
    no_space
      (_access_token (GSCClient_init default_settings "abc" None None)) /\
    _session_headers (GSCClient_init default_settings "abc" None None)
      !! "Authorization"
      = Some ("Bearer " +:+
              _access_token
                (GSCClient_init default_settings "abc" None None)) /\
    _timeout (GSCClient_init default_settings "abc" None None)
      = Config.timeout default_settings.
Proof.
  assert (H1 : get_client default_settings (Some "Bearer abc")
               = inl (GSCClient_init default_settings "abc" None None))
    by reflexivity.
  refine (conj H1 _).
  exact (get_client_token default_settings _ _ H1).
Defined.

Lemma get_client_accepts_spaced_header_witness :
  all_space " " /\ all_space "  " /\ "  " <> "" /\ all_space "" /\
  py_lower "BEARER" = "bearer" /\ no_space "BEARER" /\
  "abc" <> "" /\ no_space "abc" /\
  get_client default_settings
    (Some (" " +:+ "BEARER" +:+ "  " +:+ "abc" +:+ ""))
  = inl (GSCClient_init default_settings "abc" None None).
Proof.
  assert (H1 : all_space " ") by (simpl; auto).
  assert (H2 : all_space "  ") by (simpl; auto).
  assert (H3 : "  " <> "") by discriminate.
  assert (H4 : all_space "") by exact I.
  assert (H5 : py_lower "BEARER" = "bearer") by reflexivity.
  assert (H6 : no_space "BEARER") by (simpl; auto 10).
  assert (H7 : "abc" <> "") by discriminate.
  assert (H8 : no_space "abc") by (simpl; auto).
  refine (conj H1 (conj H2 (conj H3 (conj H4 (conj H5 (conj H6
            (conj H7 (conj H8 _)))))))).
  exact (get_client_accepts_spaced_header default_settings
           " " "BEARER" "  " "abc" "" H1 H2 H3 H4 H5 H6 H7 H8).
Defined.

Lemma dropped_body_is_still_parsed_witness :
  (6 <= 6)%nat /\
  (exists c tr w',
     Client.sites_add float_of_digits repr_opaque _ replay
       6 test_client "https://example.com/" [html_page]
       = Some (c, tr, w') /\ parsed_then_dropped c tr) /\
  (exists c tr w',
     Client.sitemaps_delete float_of_digits repr_opaque _ replay
       6 test_client "https://example.com/" "sitemap.xml" [html_page]
       = Some (c, tr, w') /\ parsed_then_dropped c tr).
Proof.
  split; [lia|].
  apply (dropped_body_is_still_parsed float_of_digits repr_opaque _ replay
           6 test_client "https://example.com/" "sitemap.xml" [html_page]).
  lia.
Defined.

Lemma delete_sitemap_util_outcome_witness :
  (6 <= 6)%nat /\
  exists c tr w' n,
    Sitemaps.delete_sitemap_util float_of_digits repr_opaque _ replay
      6 test_client "https://example.com/" "sitemap.xml" [no_content]
      = Some (c, tr, w') /\
    (1 <= n <= 6)%nat /\
    requests tr =
      replicate n (mkRequest "DELETE"
                     (Client.sitemap_url_of "https://example.com/"
                        "sitemap.xml")
                     None (_timeout test_client)) /\
    (forall d, c = Returned d ->
       d = VDict {[ "status" := VStr "deleted" ]} /\
       exists rs, last (responses tr) = Some rs /\
                  is_success (status_code rs)) /\
    (forall e, c = Raised e ->
       exists rs, last (responses tr) = Some rs /\
                  e = error_of_response repr_opaque rs).
Proof.
  split; [lia|].
  apply (delete_sitemap_util_outcome float_of_digits repr_opaque _ replay
           6 test_client "https://example.com/" "sitemap.xml" [no_content]).
  lia.
Defined.

Lemma search_analytics_query_outcome_witness :
  (6 <= 6)%nat /\
  exists c tr w' n,
    Client.search_analytics_query float_of_digits repr_opaque
      big_int_unused _ replay 6 test_client "https://example.com/"
      (SearchAnalytics.request_of_body july_body) [no_content]
      = Some (c, tr, w') /\
    (1 <= n <= 6)%nat /\
    requests tr =
      replicate n
        (mkRequest "POST" (Client.query_url_of "https://example.com/")
           (Some (VDict (Requests.to_dict
                           (SearchAnalytics.request_of_body july_body))))
           (_timeout test_client)) /\
    forall rs, last (responses tr) = Some rs ->
      is_success (status_code rs) ->
      (content rs = [] ->
       c = Returned (Responses.mkSearchAnalyticsQueryResponse [] VNone)) /\
      (content rs <> [] -> forall v, json rs = Some v ->
       c = match Responses.SearchAnalyticsQueryResponse_from_dict
                   float_of_digits big_int_unused v with
           | Value r => Returned r
           | Throw e => Escaped e
           end).
Proof.
  split; [lia|].
  apply (search_analytics_query_outcome float_of_digits repr_opaque
           big_int_unused _ replay 6 test_client "https://example.com/"
           (SearchAnalytics.request_of_body july_body) [no_content]).
  lia.
Defined.

Lemma response_dict_reads_back_witness :
  Forall SearchAnalytics.row_normal
    (Responses.rows
       (Responses.mkSearchAnalyticsQueryResponse [row_object]
          (VStr "auto"))) /\
  Responses.SearchAnalyticsQueryResponse_from_dict
    float_of_digits big_int_unused
    (SearchAnalytics.response_to_dict
       (Responses.mkSearchAnalyticsQueryResponse [row_object]
          (VStr "auto")))
  = Value (Responses.mkSearchAnalyticsQueryResponse [row_object]
             (VStr "auto")).
Proof.
  assert (H1 : Forall SearchAnalytics.row_normal
                 (Responses.rows
                    (Responses.mkSearchAnalyticsQueryResponse [row_object]
                       (VStr "auto")))).
  { constructor; [|constructor]. unfold SearchAnalytics.row_normal. simpl.
    split; [right; reflexivity|].
    repeat split; intros H; first [reflexivity | vm_compute in H;
                                   discriminate H]. }
  refine (conj H1 _).
  exact (response_dict_reads_back float_of_digits big_int_unused _ H1).
Defined.

Lemma search_analytics_query_util_outcome_witness :
  (6 <= 6)%nat /\
  exists c tr w' n,
    SearchAnalytics.search_analytics_query_util float_of_digits repr_opaque
      big_int_unused _ replay 6 test_client july_body [no_content]
      = Some (c, tr, w') /\
    (1 <= n <= 6)%nat /\
    requests tr =
      replicate n
        (mkRequest "POST"
           (Client.query_url_of (SearchAnalytics.siteUrl july_body))
           (Some (VDict (Requests.to_dict
                           (SearchAnalytics.request_of_body july_body))))
           (_timeout test_client)) /\
    Requests.to_dict (SearchAnalytics.request_of_body july_body)
      !! "siteUrl" = None /\
    (is_Some (Requests.to_dict (SearchAnalytics.request_of_body july_body)
                !! "dimensions") <->
     exists x l, SearchAnalytics.dimensions july_body = Some (x :: l)) /\
    (forall d, c = Returned d ->
       exists resp, d = SearchAnalytics.response_to_dict resp).
Proof.
  split; [lia|].
  apply (search_analytics_query_util_outcome float_of_digits repr_opaque
           big_int_unused _ replay 6 test_client july_body [no_content]).
  lia.
Defined.

(** A [Retry-After] beyond the range of [time.sleep]: the call ends after one
    attempt, without sleeping. *)
Example retry_after_beyond_sleep_range :
  sites_list [rate_limited_for "10000000000"; empty_object] =
    Some (Uncaught OverflowError,
          [Attempt 1 1 list_sites (rate_limited_for "10000000000")],
          [empty_object]).
Proof. vm_compute. reflexivity. Qed.

(** Spot checks of the text functions and of the conversions. *)

Example quote_site_url :
  quote "https://example.com/" = "https%3A%2F%2Fexample.com%2F".
Proof. reflexivity. Qed.

Example quote_domain_property :
  quote "sc-domain:example.com" = "sc-domain%3Aexample.com".
Proof. reflexivity. Qed.

Example split_bearer_header :
  py_split "  Bearer   abc " = ["Bearer"; "abc"].
Proof. reflexivity. Qed.

Example row_data_converts :
  Responses.SearchAnalyticsRow_from_dict float_of_digits big_int_unused
    row_data = Value row_object.
Proof. vm_compute. reflexivity. Qed.

Example test_client_timeout : _timeout test_client = 30.
Proof. reflexivity. Qed.
